(** * Broadcom STB AVS TMON thermal sensor driver

    A shallow embedding of [drivers/thermal/broadcom/brcmstb_thermal.c]:
    the code/temperature converter, the trip descriptor table, the
    read-modify-write register helpers, the threaded interrupt handler and
    the two callbacks handed to the thermal framework ([get_temp],
    [set_trips]).

    C integers are integers of [Z] with the 32-bit wrap-around written
    out ([u32] for [u32], [s32] for [int]).  The memory-mapped register
    block is a word per byte offset from [tmon_base]; every access the
    driver makes is recorded, in program order, in a trace, together with
    the calls to [thermal_zone_device_update].  The [dev_dbg] and [dev_err]
    messages touch neither the registers nor the zone and are left out. *)

From Stdlib Require Import ZArith Lia List Bool.
From coqutil Require Import Z.bitblast.
Import ListNotations.
Local Open Scope Z_scope.

(** ** Machine integers and kernel macros *)

Module Cint.

(** Value of an [u32] expression: reduction modulo 2^32. *)
Definition u32 (z : Z) : Z := z mod 2 ^ 32.

(** Value of an [int] expression: two's complement wrap-around. *)
Definition s32 (z : Z) : Z := (z + 2 ^ 31) mod 2 ^ 32 - 2 ^ 31.

(** [INT_MAX] of the C implementation ([int] is 32 bits wide). *)
Definition INT_MAX : Z := 2147483647.

(** [~x] on an [u32]. *)
Definition not32 (x : Z) : Z := u32 (Z.lnot x).

(** Modelled from the spec: [BIT] of [linux/bits.h] is not part of the
    sources at hand; the register layout table gives single bit positions
    ("bit 1: HIGH enable; bit 0: LOW enable"), so [BIT n] is the word with
    bit [n] set. *)
Definition BIT (n : Z) : Z := u32 (Z.shiftl 1 n).

(** Modelled from the spec: [GENMASK] of [linux/bits.h] is not part of the
    sources at hand; the register layout table reads [GENMASK(26, 17)] as
    "bits 17-26" and [GENMASK(10, 1)] as "bits 1-10", so [GENMASK h l] is
    the word with bits [l] to [h], both included, set. *)
Definition GENMASK (h l : Z) : Z := u32 (Z.shiftl (Z.ones (h - l + 1)) l).

(** C division of two [int]s truncates toward zero. *)
Definition idiv (n d : Z) : Z := s32 (Z.quot n d).

(** Modelled from the spec: [DIV_ROUND_UP] of [linux/math.h] is not part of
    the sources at hand; the design calls it "round the quotient up
    (ceiling division)".  The kernel macro is [((n) + (d) - 1) / (d)], in
    [int] arithmetic at its one use here; lemma [DIV_ROUND_UP_ceiling]
    below shows that this is the ceiling for the operands the driver
    passes. *)
Definition DIV_ROUND_UP (n d : Z) : Z := idiv (s32 (s32 (n + d) - 1)) d.

(** [EIO] of [errno.h]. *)
Definition EIO : Z := 5.

End Cint.
Import Cint.

(** ** Register map and constants *)

Definition AVS_TMON_STATUS : Z := 0x00.

Definition AVS_TMON_EN_OVERTEMP_RESET : Z := 0x04.
Definition AVS_TMON_EN_OVERTEMP_RESET_msk : Z := BIT 0.

Definition AVS_TMON_RESET_THRESH : Z := 0x08.
Definition AVS_TMON_RESET_THRESH_msk : Z := GENMASK 10 1.
Definition AVS_TMON_RESET_THRESH_shift : Z := 1.

Definition AVS_TMON_INT_IDLE_TIME : Z := 0x10.

Definition AVS_TMON_EN_TEMP_INT_SRCS : Z := 0x14.
Definition AVS_TMON_EN_TEMP_INT_SRCS_high : Z := BIT 1.
Definition AVS_TMON_EN_TEMP_INT_SRCS_low : Z := BIT 0.

Definition AVS_TMON_INT_THRESH : Z := 0x18.
Definition AVS_TMON_INT_THRESH_high_msk : Z := GENMASK 26 17.
Definition AVS_TMON_INT_THRESH_high_shift : Z := 17.
Definition AVS_TMON_INT_THRESH_low_msk : Z := GENMASK 10 1.
Definition AVS_TMON_INT_THRESH_low_shift : Z := 1.

Definition AVS_TMON_TEMP_INT_CODE : Z := 0x1c.
Definition AVS_TMON_TP_TEST_ENABLE : Z := 0x20.

(** Default coefficients *)
Definition AVS_TMON_TEMP_SLOPE : Z := 487.
Definition AVS_TMON_TEMP_OFFSET : Z := 410040.

(** HW related temperature constants *)
Definition AVS_TMON_TEMP_MAX : Z := 0x3ff.
Definition AVS_TMON_TEMP_MIN : Z := -88161.
Definition AVS_TMON_TEMP_MASK : Z := AVS_TMON_TEMP_MAX.

(** [enum avs_tmon_trip_type]; [TMON_TRIP_TYPE_MAX] only counts the entries
    and indexes no descriptor. *)
Inductive avs_tmon_trip_type : Set :=
| TMON_TRIP_TYPE_LOW
| TMON_TRIP_TYPE_HIGH
| TMON_TRIP_TYPE_RESET.

Definition is_low (type : avs_tmon_trip_type) : bool :=
  match type with TMON_TRIP_TYPE_LOW => true | _ => false end.

(** [struct avs_tmon_trip] *)
Record avs_tmon_trip : Set := {
  enable_offs : Z;   (* HW bit to enable the trip *)
  enable_mask : Z;
  reg_offs : Z;      (* HW field to read the trip temperature *)
  reg_msk : Z;
  reg_shift : Z
}.

(** The table [avs_tmon_trips[]], indexed by trip type. *)
Definition avs_tmon_trips (type : avs_tmon_trip_type) : avs_tmon_trip :=
  match type with
  | TMON_TRIP_TYPE_LOW =>
      {| enable_offs := AVS_TMON_EN_TEMP_INT_SRCS;
         enable_mask := AVS_TMON_EN_TEMP_INT_SRCS_low;
         reg_offs := AVS_TMON_INT_THRESH;
         reg_msk := AVS_TMON_INT_THRESH_low_msk;
         reg_shift := AVS_TMON_INT_THRESH_low_shift |}
  | TMON_TRIP_TYPE_HIGH =>
      {| enable_offs := AVS_TMON_EN_TEMP_INT_SRCS;
         enable_mask := AVS_TMON_EN_TEMP_INT_SRCS_high;
         reg_offs := AVS_TMON_INT_THRESH;
         reg_msk := AVS_TMON_INT_THRESH_high_msk;
         reg_shift := AVS_TMON_INT_THRESH_high_shift |}
  | TMON_TRIP_TYPE_RESET =>
      {| enable_offs := AVS_TMON_EN_OVERTEMP_RESET;
         enable_mask := AVS_TMON_EN_OVERTEMP_RESET_msk;
         reg_offs := AVS_TMON_RESET_THRESH;
         reg_msk := AVS_TMON_RESET_THRESH_msk;
         reg_shift := AVS_TMON_RESET_THRESH_shift |}
  end.

(** [struct brcmstb_thermal_of_data], without the callback table [of_ops]. *)
Record brcmstb_thermal_of_data : Set := {
  status_valid_mask : Z;
  status_data_mask : Z;
  status_data_shift : Z
}.

Definition bcm7445_thermal_of_data : brcmstb_thermal_of_data :=
  {| status_valid_mask := BIT 11;
     status_data_mask := GENMASK 10 1;
     status_data_shift := 1 |}.

Definition bcm2711_thermal_of_data : brcmstb_thermal_of_data :=
  {| status_valid_mask := BIT 10;
     status_data_mask := GENMASK 9 0;
     status_data_shift := 0 |}.

(** ** Code/temperature converter *)

(** Convert a HW code to a temperature reading (millidegree celsius).  The
    product is an [u32] product, cast to [int]; the difference is an [int]
    difference.  The zone argument of the C function is not used by it. *)
Definition avs_tmon_code_to_temp (code : Z) : Z :=
  s32 (AVS_TMON_TEMP_OFFSET -
       s32 (u32 (Z.land code AVS_TMON_TEMP_MAX * AVS_TMON_TEMP_SLOPE))).

(** Convert a temperature value (millidegree celsius) to a HW code;
    [low]: round toward the low side. *)
Definition avs_tmon_temp_to_code (temp : Z) (low : bool) : Z :=
  if temp <? AVS_TMON_TEMP_MIN then AVS_TMON_TEMP_MAX
  else if temp >=? AVS_TMON_TEMP_OFFSET then 0
  else if low then
    u32 (DIV_ROUND_UP (s32 (AVS_TMON_TEMP_OFFSET - temp)) AVS_TMON_TEMP_SLOPE)
  else
    u32 (idiv (s32 (AVS_TMON_TEMP_OFFSET - temp)) AVS_TMON_TEMP_SLOPE).

(** The mathematical quotients the design speaks of: the exact quotient
    rounded down and rounded up. *)
Definition floor_div (n d : Z) : Z := n / d.
Definition ceil_div (n d : Z) : Z := - ((- n) / d).

(** ** Device state and the access monad *)

(** What the driver does to the outside world, in program order. *)
Inductive event : Set :=
| EvRead (offs : Z)                 (* __raw_readl(tmon_base + offs) *)
| EvWrite (offs : Z) (val : Z)      (* __raw_writel(val, tmon_base + offs) *)
| EvNotify (arg : Z).               (* thermal_zone_device_update(thermal, arg) *)

(** The register block behind [priv->tmon_base] and the trace so far. *)
Record tmon : Type := {
  regs : Z -> Z;
  trace : list event
}.

Definition M (A : Type) : Type := tmon -> A * tmon.

Definition ret {A} (a : A) : M A := fun s => (a, s).

Definition bind {A B} (m : M A) (k : A -> M B) : M B :=
  fun s => let (a, s') := m s in k a s'.

Notation "x <- m ;; k" := (bind m (fun x => k))
  (at level 61, m at next level, right associativity).
Notation "m ;;; k" := (bind m (fun _ => k))
  (at level 61, right associativity).

Definition log (e : event) (s : tmon) : tmon :=
  {| regs := regs s; trace := trace s ++ [e] |}.

Definition __raw_readl (offs : Z) : M Z :=
  fun s => (regs s offs, log (EvRead offs) s).

(** The register block with the word at [offs] replaced. *)
Definition upd (r : Z -> Z) (offs val : Z) : Z -> Z :=
  fun o => if o =? offs then val else r o.

Definition __raw_writel (val offs : Z) : M unit :=
  fun s => (tt, log (EvWrite offs (u32 val))
                  {| regs := upd (regs s) offs (u32 val);
                     trace := trace s |}).

(** [thermal_zone_device_update] belongs to the thermal framework; the
    driver's call is recorded with its second argument. *)
Definition thermal_zone_device_update (arg : Z) : M unit :=
  fun s => (tt, log (EvNotify arg) s).

(** Result and final state of a run. *)
Definition result {A} (m : M A) (s : tmon) : A := fst (m s).
Definition after {A} (m : M A) (s : tmon) : tmon := snd (m s).

(** The writes of a trace, as (offset, value) pairs in program order. *)
Fixpoint writes (t : list event) : list (Z * Z) :=
  match t with
  | [] => []
  | EvWrite o v :: t' => (o, v) :: writes t'
  | _ :: t' => writes t'
  end.

(** The arguments of the notifications of a trace, in program order. *)
Fixpoint notifications (t : list event) : list Z :=
  match t with
  | [] => []
  | EvNotify a :: t' => a :: notifications t'
  | _ :: t' => notifications t'
  end.

(** The offsets read in a trace, in program order. *)
Fixpoint reads (t : list event) : list Z :=
  match t with
  | [] => []
  | EvRead o :: t' => o :: reads t'
  | _ :: t' => reads t'
  end.

(** Every register holds a 32-bit word. *)
Definition regs_u32 (s : tmon) : Prop :=
  forall offs, 0 <= regs s offs < 2 ^ 32.

(** ** Governance-facing surface: reading the temperature *)

(** [brcmstb_get_temp]: the pair of the returned [int] and of the value
    stored through [temp] ([None] when nothing is stored). *)
Definition brcmstb_get_temp (socdata : brcmstb_thermal_of_data)
  : M (Z * option Z) :=
  val <- __raw_readl AVS_TMON_STATUS ;;
  if Z.land val (status_valid_mask socdata) =? 0 then
    ret (- EIO, None)
  else
    let val := Z.shiftr (Z.land val (status_data_mask socdata))
                        (status_data_shift socdata) in
    let t := avs_tmon_code_to_temp val in
    if t <? 0 then ret (0, Some 0) else ret (0, Some t).

(** ** Trip register access layer *)

Definition avs_tmon_trip_enable (type : avs_tmon_trip_type) (en : Z) : M unit :=
  let trip := avs_tmon_trips type in
  val <- __raw_readl (enable_offs trip) ;;
  let val := if en =? 0 then Z.land val (not32 (enable_mask trip))
             else Z.lor val (enable_mask trip) in
  __raw_writel val (enable_offs trip).

Definition avs_tmon_get_trip_temp (type : avs_tmon_trip_type) : M Z :=
  let trip := avs_tmon_trips type in
  val <- __raw_readl (reg_offs trip) ;;
  let val := Z.land val (reg_msk trip) in
  let val := Z.shiftr val (reg_shift trip) in
  ret (avs_tmon_code_to_temp val).

Definition avs_tmon_set_trip_temp (type : avs_tmon_trip_type) (temp : Z)
  : M unit :=
  let trip := avs_tmon_trips type in
  (* round toward low temp for the low interrupt *)
  let val := avs_tmon_temp_to_code temp (is_low type) in
  let val := u32 (Z.shiftl val (reg_shift trip)) in
  let val := Z.land val (reg_msk trip) in
  orig <- __raw_readl (reg_offs trip) ;;
  let orig := Z.land orig (not32 (reg_msk trip)) in
  let orig := Z.lor orig val in
  __raw_writel orig (reg_offs trip).

Definition avs_tmon_get_intr_temp : M Z :=
  val <- __raw_readl AVS_TMON_TEMP_INT_CODE ;;
  ret (avs_tmon_code_to_temp val).

(** ** Interrupt re-arm protocol *)

(** [irqreturn_t] *)
Inductive irqreturn_t : Set := IRQ_NONE | IRQ_HANDLED | IRQ_WAKE_THREAD.

Definition brcmstb_tmon_irq_thread : M irqreturn_t :=
  low <- avs_tmon_get_trip_temp TMON_TRIP_TYPE_LOW ;;
  high <- avs_tmon_get_trip_temp TMON_TRIP_TYPE_HIGH ;;
  intr <- avs_tmon_get_intr_temp ;;
  (* Disable high-temp until next threshold shift *)
  (if intr >=? high then avs_tmon_trip_enable TMON_TRIP_TYPE_HIGH 0
   else ret tt) ;;;
  (* Disable low-temp until next threshold shift *)
  (if intr <=? low then avs_tmon_trip_enable TMON_TRIP_TYPE_LOW 0
   else ret tt) ;;;
  (* Notify using the interrupt temperature, in case the temperature
     changes before it can next be read out *)
  thermal_zone_device_update intr ;;;
  ret IRQ_HANDLED.

(** ** Governance-facing surface: setting the trip window *)

Definition brcmstb_set_trips (low high : Z) : M Z :=
  (* Disable low-temp if "low" is too small. As per thermal framework
     API, we use -INT_MAX rather than INT_MIN. *)
  (if low <=? s32 (- INT_MAX) then
     avs_tmon_trip_enable TMON_TRIP_TYPE_LOW 0
   else
     avs_tmon_set_trip_temp TMON_TRIP_TYPE_LOW low ;;;
     avs_tmon_trip_enable TMON_TRIP_TYPE_LOW 1) ;;;
  (* Disable high-temp if "high" is too big. *)
  (if high =? INT_MAX then
     avs_tmon_trip_enable TMON_TRIP_TYPE_HIGH 0
   else
     avs_tmon_set_trip_temp TMON_TRIP_TYPE_HIGH high ;;;
     avs_tmon_trip_enable TMON_TRIP_TYPE_HIGH 1) ;;;
  ret 0.

(** ** Device attach *)

(** [ENOMEM], [ENODEV] of [errno.h] and [EPROBE_DEFER] of [linux/errno.h]. *)
Definition ENOMEM : Z := 12.
Definition ENODEV : Z := 19.
Definition EPROBE_DEFER : Z := 517.

(** What a kernel call that returns a pointer hands back: [ERR_PTR(-errno)]
    or a usable pointer.  The error numbers the kernel encodes this way are
    the positive numbers up to [MAX_ERRNO] = 4095. *)
Inductive kptr : Set :=
| ErrPtr (errno : positive)
| Valid.

Definition IS_ERR (p : kptr) : bool :=
  match p with ErrPtr _ => true | Valid => false end.

(** [PTR_ERR] of an error pointer, converted to [int]. *)
Definition PTR_ERR (errno : positive) : Z := s32 (Z.neg errno).

(** What the platform answers to the calls [brcmstb_thermal_probe] makes:
    the device being attached, as far as the probe can tell. *)
Record platform_device : Set := {
  devm_kzalloc : bool;                       (* the allocation succeeds *)
  devm_ioremap_resource : kptr;
  of_device_get_match_data : option brcmstb_thermal_of_data;
  devm_clk_get : kptr;
  clk_prepare_enable : Z;
  devm_thermal_zone_of_sensor_register : kptr;
  platform_get_irq : Z;
  devm_request_threaded_irq : Z
}.

(** The calls the probe makes into the kernel, in program order. *)
Inductive probe_call : Set :=
| Call_devm_kzalloc
| Call_platform_get_resource
| Call_devm_ioremap_resource
| Call_of_device_get_match_data
| Call_devm_clk_get
| Call_clk_prepare_enable
| Call_platform_set_drvdata
| Call_devm_thermal_zone_of_sensor_register
| Call_platform_get_irq
| Call_devm_request_threaded_irq (irq : Z).

(** Straight-line code with early [return]: [inl code] once a [return] was
    executed, with the calls made so far. *)
Definition Probe (A : Type) : Type := list probe_call -> (Z + A) * list probe_call.

Definition pure {A} (a : A) : Probe A := fun t => (inr a, t).

Definition return_ {A} (code : Z) : Probe A := fun t => (inl code, t).

Definition andthen {A B} (m : Probe A) (k : A -> Probe B) : Probe B :=
  fun t => match m t with
           | (inl code, t') => (inl code, t')
           | (inr a, t') => k a t'
           end.

Definition extern {A} (c : probe_call) (answer : A) : Probe A :=
  fun t => (inr answer, t ++ [c]).

Definition when (b : bool) (m : Probe unit) : Probe unit :=
  if b then m else pure tt.

Notation "x <~ m ;; k" := (andthen m (fun x => k))
  (at level 61, m at next level, right associativity).
Notation "m ~;; k" := (andthen m (fun _ => k))
  (at level 61, right associativity).

Definition probe_body (pdev : platform_device) : Probe unit :=
  priv <~ extern Call_devm_kzalloc (devm_kzalloc pdev) ;;
  when (negb priv) (return_ (- ENOMEM)) ~;;
  extern Call_platform_get_resource tt ~;;
  tmon_base <~ extern Call_devm_ioremap_resource
                 (devm_ioremap_resource pdev) ;;
  match tmon_base with
  | ErrPtr e => return_ (PTR_ERR e)
  | Valid => pure tt
  end ~;;
  socdata <~ extern Call_of_device_get_match_data
               (of_device_get_match_data pdev) ;;
  when (match socdata with None => true | Some _ => false end)
       (return_ (- ENODEV)) ~;;
  clk <~ extern Call_devm_clk_get (devm_clk_get pdev) ;;
  when (match clk with
        | ErrPtr e => PTR_ERR e =? - EPROBE_DEFER
        | Valid => false
        end)
       (return_ (- EPROBE_DEFER)) ~;;
  when (negb (IS_ERR clk))
       (ret <~ extern Call_clk_prepare_enable (clk_prepare_enable pdev) ;;
        when (negb (ret =? 0)) (return_ ret)) ~;;
  extern Call_platform_set_drvdata tt ~;;
  thermal <~ extern Call_devm_thermal_zone_of_sensor_register
               (devm_thermal_zone_of_sensor_register pdev) ;;
  match thermal with
  | ErrPtr e => return_ (PTR_ERR e)
  | Valid => pure tt
  end ~;;
  irq <~ extern Call_platform_get_irq (platform_get_irq pdev) ;;
  when (irq <? 0) (return_ irq) ~;;
  ret <~ extern (Call_devm_request_threaded_irq irq)
           (devm_request_threaded_irq pdev) ;;
  when (ret <? 0) (return_ ret) ~;;
  return_ 0.

(** [brcmstb_thermal_probe]: the returned [int] and the calls made. *)
Definition brcmstb_thermal_probe (pdev : platform_device)
  : Z * list probe_call :=
  match probe_body pdev [] with
  | (inl code, t) => (code, t)
  | (inr _, t) => (0, t)
  end.

(** Every error pointer of the platform carries an error number the kernel
    can encode. *)
Definition errno_ok (p : kptr) : Prop :=
  match p with ErrPtr e => (Z.pos e <= 4095) | Valid => True end.

Definition platform_ok (pdev : platform_device) : Prop :=
  errno_ok (devm_ioremap_resource pdev) /\
  errno_ok (devm_clk_get pdev) /\
  errno_ok (devm_thermal_zone_of_sensor_register pdev).

(** The same platform with a clock that is there and can be enabled. *)
Definition with_working_clock (pdev : platform_device) : platform_device :=
  {| devm_kzalloc := devm_kzalloc pdev;
     devm_ioremap_resource := devm_ioremap_resource pdev;
     of_device_get_match_data := of_device_get_match_data pdev;
     devm_clk_get := Valid;
     clk_prepare_enable := 0;
     devm_thermal_zone_of_sensor_register :=
       devm_thermal_zone_of_sensor_register pdev;
     platform_get_irq := platform_get_irq pdev;
     devm_request_threaded_irq := devm_request_threaded_irq pdev |}.

(** A BCM7445 with everything in place, on interrupt line 42. *)
Definition good_pdev : platform_device :=
  {| devm_kzalloc := true;
     devm_ioremap_resource := Valid;
     of_device_get_match_data := Some bcm7445_thermal_of_data;
     devm_clk_get := Valid;
     clk_prepare_enable := 0;
     devm_thermal_zone_of_sensor_register := Valid;
     platform_get_irq := 42;
     devm_request_threaded_irq := 0 |}.

(** The same device without a clock ([-ENOENT]), and with a clock that is
    not ready yet ([-EPROBE_DEFER]). *)
Definition no_clock_pdev : platform_device :=
  {| devm_kzalloc := true;
     devm_ioremap_resource := Valid;
     of_device_get_match_data := Some bcm7445_thermal_of_data;
     devm_clk_get := ErrPtr 2;
     clk_prepare_enable := 0;
     devm_thermal_zone_of_sensor_register := Valid;
     platform_get_irq := 42;
     devm_request_threaded_irq := 0 |}.

Definition deferred_clock_pdev : platform_device :=
  {| devm_kzalloc := true;
     devm_ioremap_resource := Valid;
     of_device_get_match_data := Some bcm7445_thermal_of_data;
     devm_clk_get := ErrPtr 517;
     clk_prepare_enable := 0;
     devm_thermal_zone_of_sensor_register := Valid;
     platform_get_irq := 42;
     devm_request_threaded_irq := 0 |}.

(** ** Observations on a device state *)

(** The code held in the threshold field of a trip: what
    [avs_tmon_get_trip_temp] extracts before converting it. *)
Definition trip_code (type : avs_tmon_trip_type) (s : tmon) : Z :=
  let trip := avs_tmon_trips type in
  Z.shiftr (Z.land (regs s (reg_offs trip)) (reg_msk trip)) (reg_shift trip).

(** Whether the enable bit of a trip is set. *)
Definition trip_armed (type : avs_tmon_trip_type) (s : tmon) : bool :=
  let trip := avs_tmon_trips type in
  negb (Z.land (regs s (enable_offs trip)) (enable_mask trip) =? 0).

(** The position of the enable bit of a trip inside its enable register
    (the layout table: "bit 1: HIGH enable; bit 0: LOW enable", "bit 0: RESET
    trip enable"). *)
Definition enable_bit (type : avs_tmon_trip_type) : Z :=
  match type with
  | TMON_TRIP_TYPE_LOW => 0
  | TMON_TRIP_TYPE_HIGH => 1
  | TMON_TRIP_TYPE_RESET => 0
  end.

(** The word [avs_tmon_trip_enable] writes back when it read [orig]. *)
Definition rmw_enable (orig mask en : Z) : Z :=
  u32 (if en =? 0 then Z.land orig (not32 mask) else Z.lor orig mask).

(** The ten-bit threshold field that starts at bit [sh]. *)
Definition field_mask (sh : Z) : Z := Z.shiftl (Z.ones 10) sh.

(** The read-modify-write of [avs_tmon_set_trip_temp] on the word [orig]. *)
Definition rmw_field (orig code sh : Z) : Z :=
  u32 (Z.lor (Z.land orig (not32 (field_mask sh)))
             (Z.land (u32 (Z.shiftl code sh)) (field_mask sh))).

(** The words [brcmstb_set_trips] leaves in the enable register and in the
    threshold register, from the words [w] it found there. *)
Definition set_trips_en (low high w : Z) : Z :=
  rmw_enable
    (rmw_enable w AVS_TMON_EN_TEMP_INT_SRCS_low
       (if low <=? - INT_MAX then 0 else 1))
    AVS_TMON_EN_TEMP_INT_SRCS_high
    (if high =? INT_MAX then 0 else 1).

Definition set_trips_thresh (low high w : Z) : Z :=
  let w1 := if low <=? - INT_MAX then w
            else rmw_field w (avs_tmon_temp_to_code low true)
                   AVS_TMON_INT_THRESH_low_shift in
  if high =? INT_MAX then w1
  else rmw_field w1 (avs_tmon_temp_to_code high false)
         AVS_TMON_INT_THRESH_high_shift.

(** The events of a sequence of read-modify-writes: each word of [ws] is
    written to its offset right after that offset was read. *)
Definition rmw_events (ws : list (Z * Z)) : list event :=
  flat_map (fun w => [EvRead (fst w); EvWrite (fst w) (snd w)]) ws.

(** ** Sample device states *)

(** A register block given by the words at the listed offsets, zero
    elsewhere, with an empty trace. *)
Fixpoint regs_of (l : list (Z * Z)) : Z -> Z :=
  match l with
  | [] => fun _ => 0
  | (o, v) :: l' => upd (regs_of l') o v
  end.

Definition device (l : list (Z * Z)) : tmon :=
  {| regs := regs_of l; trace := [] |}.

(** Both trips armed, LOW threshold code 200, HIGH threshold code 100, and an
    interrupt taken at code 50 (hotter than both thresholds). *)
Definition hot_irq_state : tmon :=
  device [(AVS_TMON_EN_TEMP_INT_SRCS, 3);
          (AVS_TMON_INT_THRESH, Z.lor (Z.shiftl 100 17) (Z.shiftl 200 1));
          (AVS_TMON_TEMP_INT_CODE, 50)].

(** A BCM7445 status word with the valid bit clear, and one with the valid
    bit set and data code 600. *)
Definition stale_status_state : tmon :=
  device [(AVS_TMON_STATUS, Z.shiftl 600 1)].

Definition fresh_status_state : tmon :=
  device [(AVS_TMON_STATUS, Z.lor (Z.shiftl 1 11) (Z.shiftl 600 1))].

(** Both trips armed, LOW threshold code 200, HIGH threshold code 100, and an
    interrupt taken at code 150 (between the two thresholds). *)
Definition calm_irq_state : tmon :=
  device [(AVS_TMON_EN_TEMP_INT_SRCS, 3);
          (AVS_TMON_INT_THRESH, Z.lor (Z.shiftl 100 17) (Z.shiftl 200 1));
          (AVS_TMON_TEMP_INT_CODE, 150)].

(** A valid BCM7445 status word with data code 1000, which converts to
    -76960 millidegrees. *)
Definition cold_status_state : tmon :=
  device [(AVS_TMON_STATUS, Z.lor (Z.shiftl 1 11) (Z.shiftl 1000 1))].

(** * Properties *)

(** ** Integers that fit are not wrapped *)

Lemma u32_small (z : Z) : 0 <= z < 2 ^ 32 -> u32 z = z.
Proof. intros H. unfold u32. now apply Z.mod_small. Qed.

Lemma s32_small (z : Z) : - 2 ^ 31 <= z < 2 ^ 31 -> s32 z = z.
Proof. intros H. unfold s32. rewrite Z.mod_small; lia. Qed.

Lemma u32_range (z : Z) : 0 <= u32 z < 2 ^ 32.
Proof. unfold u32. apply Z.mod_pos_bound. lia. Qed.

Lemma idiv_nonneg (n d : Z) :
  0 <= n < 2 ^ 31 -> 0 < d -> idiv n d = n / d.
Proof.
  intros Hn Hd. unfold idiv.
  rewrite Z.quot_div_nonneg by lia.
  apply s32_small.
  assert (0 <= n / d) by (apply Z.div_pos; lia).
  assert (n / d <= n) by (apply Z.div_le_upper_bound; nia).
  lia.
Qed.

(** The kernel's [DIV_ROUND_UP] is the ceiling of the exact quotient, for a
    non-negative dividend and a positive divisor that are far from
    overflow. *)
Lemma DIV_ROUND_UP_ceiling (n d : Z) :
  0 <= n < 2 ^ 30 -> 0 < d < 2 ^ 30 ->
  d * (DIV_ROUND_UP n d - 1) < n <= d * DIV_ROUND_UP n d.
Proof.
  intros Hn Hd. unfold DIV_ROUND_UP.
  rewrite (s32_small (n + d)) by lia.
  rewrite (s32_small (n + d - 1)) by lia.
  rewrite idiv_nonneg by lia.
  pose proof (Z.div_mod (n + d - 1) d ltac:(lia)) as E.
  pose proof (Z.mod_pos_bound (n + d - 1) d ltac:(lia)) as B.
  nia.
Qed.

Lemma land_code_range (code : Z) : 0 <= Z.land code AVS_TMON_TEMP_MAX <= 1023.
Proof.
  change AVS_TMON_TEMP_MAX with (Z.ones 10).
  rewrite Z.land_ones by lia.
  pose proof (Z.mod_pos_bound code (2 ^ 10) ltac:(lia)). lia.
Qed.

(** The conversion of a code, with the wrap-around gone. *)
Lemma code_to_temp_exact (code : Z) :
  avs_tmon_code_to_temp code = 410040 - Z.land code 0x3ff * 487.
Proof.
  unfold avs_tmon_code_to_temp, AVS_TMON_TEMP_OFFSET, AVS_TMON_TEMP_SLOPE.
  pose proof (land_code_range code) as R.
  unfold AVS_TMON_TEMP_MAX in *.
  rewrite u32_small by lia.
  rewrite (s32_small (_ * _)) by lia.
  apply s32_small. lia.
Qed.

(** The conversion of a temperature inside the window, with the wrap-around
    and the truncating division gone. *)
Lemma temp_to_code_inside (temp : Z) (low : bool) :
  -88161 <= temp < 410040 ->
  avs_tmon_temp_to_code temp low =
    if low then (410040 - temp + 486) / 487 else (410040 - temp) / 487.
Proof.
  intros H. unfold avs_tmon_temp_to_code, AVS_TMON_TEMP_MIN,
    AVS_TMON_TEMP_OFFSET, AVS_TMON_TEMP_SLOPE, DIV_ROUND_UP.
  destruct (Z.ltb_spec temp (-88161)); [lia|].
  destruct (Z.geb_spec temp 410040); [lia|].
  rewrite (s32_small (410040 - temp)) by lia.
  destruct low.
  - rewrite (s32_small (_ + 487)) by lia.
    rewrite (s32_small (_ - 1)) by lia.
    rewrite idiv_nonneg by lia.
    replace (410040 - temp + 487 - 1) with (410040 - temp + 486) by lia.
    apply u32_small.
    assert (0 <= (410040 - temp + 486) / 487) by (apply Z.div_pos; lia).
    assert ((410040 - temp + 486) / 487 < 1024)
      by (apply Z.div_lt_upper_bound; lia).
    lia.
  - rewrite idiv_nonneg by lia.
    apply u32_small.
    assert (0 <= (410040 - temp) / 487) by (apply Z.div_pos; lia).
    assert ((410040 - temp) / 487 < 1024)
      by (apply Z.div_lt_upper_bound; lia).
    lia.
Qed.

Lemma temp_to_code_below (temp : Z) (low : bool) :
  temp < -88161 -> avs_tmon_temp_to_code temp low = 1023.
Proof.
  intros H. unfold avs_tmon_temp_to_code, AVS_TMON_TEMP_MIN.
  destruct (Z.ltb_spec temp (-88161)); [reflexivity | lia].
Qed.

Lemma temp_to_code_above (temp : Z) (low : bool) :
  410040 <= temp -> avs_tmon_temp_to_code temp low = 0.
Proof.
  intros H. unfold avs_tmon_temp_to_code, AVS_TMON_TEMP_MIN,
    AVS_TMON_TEMP_OFFSET.
  destruct (Z.ltb_spec temp (-88161)); [lia|].
  destruct (Z.geb_spec temp 410040); [reflexivity | lia].
Qed.

Lemma temp_to_code_range (temp : Z) (low : bool) :
  0 <= avs_tmon_temp_to_code temp low <= 1023.
Proof.
  destruct (Z.lt_ge_cases temp (-88161)) as [Hlo|Hlo].
  - rewrite temp_to_code_below by lia. lia.
  - destruct (Z.lt_ge_cases temp 410040) as [Hhi|Hhi].
    + rewrite temp_to_code_inside by lia.
      destruct low.
      * assert (0 <= (410040 - temp + 486) / 487) by (apply Z.div_pos; lia).
        assert ((410040 - temp + 486) / 487 < 1024)
          by (apply Z.div_lt_upper_bound; lia).
        lia.
      * assert (0 <= (410040 - temp) / 487) by (apply Z.div_pos; lia).
        assert ((410040 - temp) / 487 < 1024)
          by (apply Z.div_lt_upper_bound; lia).
        lia.
    + rewrite temp_to_code_above by lia. lia.
Qed.

(** ** The converter (claims C4, C5, C6, C7, C9) *)

Lemma ceil_div_least (n d : Z) :
  0 < d -> d * (ceil_div n d - 1) < n <= d * ceil_div n d.
Proof.
  intros Hd. unfold ceil_div.
  pose proof (Z.div_mod (- n) d ltac:(lia)) as E.
  pose proof (Z.mod_pos_bound (- n) d Hd) as B.
  nia.
Qed.

Lemma floor_div_greatest (n d : Z) :
  0 < d -> d * floor_div n d <= n < d * (floor_div n d + 1).
Proof.
  intros Hd. unfold floor_div.
  pose proof (Z.div_mod n d ltac:(lia)) as E.
  pose proof (Z.mod_pos_bound n d Hd) as B.
  nia.
Qed.

Lemma round_up_is_ceil (n : Z) : (n + 486) / 487 = ceil_div n 487.
Proof.
  pose proof (ceil_div_least n 487 ltac:(lia)) as C.
  pose proof (Z.div_mod (n + 486) 487 ltac:(lia)) as E.
  pose proof (Z.mod_pos_bound (n + 486) 487 ltac:(lia)) as B.
  lia.
Qed.

(** C5: for every code, [codeToTemp code = 410040 - (code & 0x3FF) * 487] in
    exact integer arithmetic; code 0 gives 410040, code 1023 gives -88161, and
    the result can be negative. *)
Theorem code_to_temp_linear :
  (forall code : Z,
      avs_tmon_code_to_temp code = 410040 - Z.land code 0x3ff * 487) /\
  avs_tmon_code_to_temp 0 = 410040 /\
  avs_tmon_code_to_temp 1023 = -88161 /\
  (exists code : Z, avs_tmon_code_to_temp code < 0).
Proof.
  split; [exact code_to_temp_exact|].
  split; [reflexivity|].
  split; [reflexivity|].
  exists 1023. reflexivity.
Qed.

(** C4: for every temperature [t] and both rounding modes, [tempToCode]
    returns the maximum code 0x3FF when [t < -88161], code 0 when
    [t >= 410040], and otherwise the exact quotient [(410040 - t) / 487],
    rounded up when [roundLow] is set and down when it is not. *)
Theorem temp_to_code_saturates_and_divides (t : Z) (roundLow : bool) :
  (t < -88161 -> avs_tmon_temp_to_code t roundLow = 0x3ff) /\
  (t >= 410040 -> avs_tmon_temp_to_code t roundLow = 0) /\
  (-88161 <= t < 410040 ->
   avs_tmon_temp_to_code t roundLow =
     if roundLow then ceil_div (410040 - t) 487
     else floor_div (410040 - t) 487).
Proof.
  split; [|split]; intros H.
  - now apply temp_to_code_below.
  - apply temp_to_code_above. lia.
  - rewrite temp_to_code_inside by lia.
    destruct roundLow; [apply round_up_is_ceil | reflexivity].
Qed.

Lemma temp_to_code_saturates_and_divides_witness :
  avs_tmon_temp_to_code (-90000) true = 0x3ff /\
  avs_tmon_temp_to_code 500000 false = 0 /\
  avs_tmon_temp_to_code 50000 true = ceil_div (410040 - 50000) 487 /\
  avs_tmon_temp_to_code 50000 false = floor_div (410040 - 50000) 487.
Proof.
  split; [|split; [|split]].
  - apply (proj1 (temp_to_code_saturates_and_divides (-90000) true)). lia.
  - apply (proj1 (proj2 (temp_to_code_saturates_and_divides 500000 false))).
    lia.
  - apply (proj2 (proj2 (temp_to_code_saturates_and_divides 50000 true))).
    lia.
  - apply (proj2 (proj2 (temp_to_code_saturates_and_divides 50000 false))).
    lia.
Defined.

(** C6: some temperature inside the window gets a code one higher when
    rounding low than when rounding high, and wherever [410040 - t] is an
    exact multiple of 487 the two rounding modes give the same code. *)
Theorem temp_to_code_rounding_asymmetry :
  (exists t : Z,
      -88161 <= t < 410040 /\
      avs_tmon_temp_to_code t true = avs_tmon_temp_to_code t false + 1) /\
  (forall t : Z,
      (410040 - t) mod 487 = 0 ->
      avs_tmon_temp_to_code t true = avs_tmon_temp_to_code t false).
Proof.
  split.
  - exists 50000. split; [lia | reflexivity].
  - intros t Hm.
    destruct (Z.lt_ge_cases t (-88161)) as [Hlo|Hlo].
    { now rewrite !temp_to_code_below. }
    destruct (Z.lt_ge_cases t 410040) as [Hhi|Hhi].
    2:{ now rewrite !temp_to_code_above. }
    rewrite !temp_to_code_inside by lia.
    pose proof (Z.div_mod (410040 - t) 487 ltac:(lia)) as E.
    pose proof (Z.div_mod (410040 - t + 486) 487 ltac:(lia)) as E'.
    pose proof (Z.mod_pos_bound (410040 - t + 486) 487 ltac:(lia)) as B.
    lia.
Qed.

Lemma temp_to_code_rounding_asymmetry_witness :
  avs_tmon_temp_to_code 409553 true = avs_tmon_temp_to_code 409553 false.
Proof.
  apply (proj2 temp_to_code_rounding_asymmetry 409553). reflexivity.
Defined.

(** C7: converting a code in [0, 1023] to a temperature and back, rounding
    high, gives the code again, exactly; and the temperature strictly
    decreases as the code grows over [0, 1023]. *)
Theorem code_round_trip_and_monotone :
  (forall c : Z,
      0 <= c <= 1023 ->
      avs_tmon_temp_to_code (avs_tmon_code_to_temp c) false = c) /\
  (forall c1 c2 : Z,
      0 <= c1 -> c1 < c2 -> c2 <= 1023 ->
      avs_tmon_code_to_temp c1 > avs_tmon_code_to_temp c2).
Proof.
  assert (L : forall c, 0 <= c <= 1023 -> Z.land c 0x3ff = c).
  { intros c Hc. change 0x3ff with (Z.ones 10).
    rewrite Z.land_ones by lia. apply Z.mod_small. lia. }
  split.
  - intros c Hc. rewrite code_to_temp_exact, (L c Hc).
    destruct (Z.eq_dec c 0) as [->|Hnz]; [reflexivity|].
    rewrite temp_to_code_inside by lia.
    replace (410040 - (410040 - c * 487)) with (c * 487) by lia.
    apply Z.div_mul. lia.
  - intros c1 c2 H1 H12 H2.
    rewrite !code_to_temp_exact, (L c1), (L c2) by lia. lia.
Qed.

Lemma code_round_trip_and_monotone_witness :
  avs_tmon_temp_to_code (avs_tmon_code_to_temp 512) false = 512 /\
  avs_tmon_code_to_temp 0 > avs_tmon_code_to_temp 1023.
Proof.
  split.
  - apply (proj1 code_round_trip_and_monotone 512). lia.
  - apply (proj2 code_round_trip_and_monotone 0 1023); lia.
Defined.

(** ** Bit fields *)

Lemma u32_land_ones (z : Z) : u32 z = Z.land z (Z.ones 32).
Proof. unfold u32. now rewrite Z.land_ones by lia. Qed.

Lemma small_land_ones (c n : Z) :
  0 <= n -> 0 <= c < 2 ^ n -> c = Z.land c (Z.ones n).
Proof.
  intros Hn Hc. rewrite Z.land_ones by lia.
  symmetry. now apply Z.mod_small.
Qed.

(** Every threshold field of the descriptor table is ten bits wide, starts
    at the descriptor's shift and lies inside the 32-bit word. *)
Lemma trip_mask_shape (type : avs_tmon_trip_type) :
  reg_msk (avs_tmon_trips type) = field_mask (reg_shift (avs_tmon_trips type))
  /\ 0 <= reg_shift (avs_tmon_trips type) <= 22.
Proof.
  destruct type; (split; [reflexivity | vm_compute; split; discriminate]).
Qed.

Lemma field_mask_bit (sh i : Z) :
  0 <= sh -> 0 <= i ->
  Z.testbit (field_mask sh) i = (sh <=? i) && (i <? sh + 10).
Proof.
  intros Hs Hi. unfold field_mask.
  destruct (Z.leb_spec sh i).
  - rewrite Z.shiftl_spec, Z.testbit_ones_nonneg by lia.
    destruct (Z.ltb_spec (i - sh) 10), (Z.ltb_spec i (sh + 10)); cbn; lia.
  - rewrite Z.shiftl_spec_low by lia. reflexivity.
Qed.

(** Reading the field back after the read-modify-write gives the code. *)
Lemma rmw_field_get (orig code sh : Z) :
  0 <= sh <= 22 -> 0 <= code <= 1023 ->
  Z.shiftr (Z.land (rmw_field orig code sh) (field_mask sh)) sh = code.
Proof.
  intros Hs Hc. unfold rmw_field, field_mask, not32.
  rewrite (small_land_ones code 10) at 2 by lia.
  rewrite !u32_land_ones.
  Z.bitblast.
Qed.

(** The read-modify-write leaves every bit outside the field as it was. *)
Lemma rmw_field_frame (orig code sh i : Z) :
  0 <= sh <= 22 -> 0 <= i < 32 ->
  Z.testbit (field_mask sh) i = false ->
  Z.testbit (rmw_field orig code sh) i = Z.testbit orig i.
Proof.
  intros Hs Hi Hout. unfold rmw_field, not32.
  rewrite !u32_land_ones.
  rewrite !Z.land_spec, Z.lor_spec, !Z.land_spec, Z.lnot_spec, Hout by lia.
  rewrite Z.testbit_ones_nonneg by lia.
  destruct (Z.ltb_spec i 32); [|lia].
  cbn. now rewrite !andb_true_r, !andb_false_r, orb_false_r.
Qed.

(** A field that does not overlap the written one reads back unchanged. *)
Lemma rmw_field_other (orig code sh sh' : Z) :
  0 <= sh <= 22 -> 0 <= sh' <= 22 ->
  sh + 10 <= sh' \/ sh' + 10 <= sh ->
  Z.land (rmw_field orig code sh) (field_mask sh') =
  Z.land orig (field_mask sh').
Proof.
  intros Hs Hs' Hd.
  apply Z.bits_inj'. intros i Hi.
  rewrite !Z.land_spec.
  destruct (Z.testbit (field_mask sh') i) eqn:E;
    [|now rewrite !andb_false_r].
  rewrite !andb_true_r.
  rewrite field_mask_bit in E by lia.
  apply andb_true_iff in E. destruct E as [E1 E2].
  apply Z.leb_le in E1. apply Z.ltb_lt in E2.
  apply rmw_field_frame; [lia | lia |].
  rewrite field_mask_bit by lia.
  destruct (Z.leb_spec sh i), (Z.ltb_spec i (sh + 10)); cbn; lia.
Qed.

Lemma bit_mask_test (v k : Z) :
  0 <= k -> (Z.land v (Z.shiftl 1 k) =? 0) = negb (Z.testbit v k).
Proof.
  intros Hk. rewrite Z.shiftl_1_l.
  destruct (Z.testbit v k) eqn:E; cbn.
  - apply Z.eqb_neq. intros H0.
    assert (T : Z.testbit (Z.land v (2 ^ k)) k = true).
    { rewrite Z.land_spec, E, Z.pow2_bits_true by lia. reflexivity. }
    rewrite H0, Z.bits_0 in T. discriminate.
  - apply Z.eqb_eq. apply Z.bits_inj'. intros i Hi.
    rewrite Z.land_spec, Z.bits_0, Z.pow2_bits_eqb by lia.
    destruct (Z.eqb_spec k i); [subst; now rewrite E | now rewrite andb_false_r].
Qed.

Lemma rmw_enable_bit (orig k en i : Z) :
  0 <= k < 32 -> 0 <= i < 32 ->
  Z.testbit (rmw_enable orig (Z.shiftl 1 k) en) i =
    if k =? i then negb (en =? 0) else Z.testbit orig i.
Proof.
  intros Hk Hi. unfold rmw_enable, not32.
  rewrite !u32_land_ones, Z.shiftl_1_l.
  destruct (en =? 0); cbn [negb].
  - rewrite !Z.land_spec, Z.lnot_spec, Z.pow2_bits_eqb,
      Z.testbit_ones_nonneg by lia.
    destruct (Z.ltb_spec i 32); [|lia].
    destruct (k =? i); cbn; now rewrite ?andb_true_r, ?andb_false_r.
  - rewrite Z.land_spec, Z.lor_spec, Z.pow2_bits_eqb,
      Z.testbit_ones_nonneg by lia.
    destruct (Z.ltb_spec i 32); [|lia].
    destruct (k =? i); cbn; now rewrite ?andb_true_r, ?orb_true_r, ?orb_false_r.
Qed.

Lemma trip_enable_shape (type : avs_tmon_trip_type) :
  enable_mask (avs_tmon_trips type) = Z.shiftl 1 (enable_bit type) /\
  0 <= enable_bit type < 32.
Proof.
  destruct type; (split; [reflexivity | vm_compute; split; [discriminate | reflexivity]]).
Qed.

Lemma trip_armed_bit (type : avs_tmon_trip_type) (s : tmon) :
  trip_armed type s =
    Z.testbit (regs s (enable_offs (avs_tmon_trips type))) (enable_bit type).
Proof.
  unfold trip_armed. destruct (trip_enable_shape type) as [-> Hb].
  rewrite bit_mask_test by lia. apply negb_involutive.
Qed.

(** ** Runs of the register helpers *)

Lemma after_bind {A B} (m : M A) (k : A -> M B) (s : tmon) :
  after (bind m k) s = after (k (result m s)) (after m s).
Proof. unfold after, result, bind. now destruct (m s). Qed.

Lemma result_bind {A B} (m : M A) (k : A -> M B) (s : tmon) :
  result (bind m k) s = result (k (result m s)) (after m s).
Proof. unfold after, result, bind. now destruct (m s). Qed.

Lemma get_trip_temp_run (type : avs_tmon_trip_type) (s : tmon) :
  avs_tmon_get_trip_temp type s =
    (avs_tmon_code_to_temp (trip_code type s),
     log (EvRead (reg_offs (avs_tmon_trips type))) s).
Proof. reflexivity. Qed.

Lemma get_intr_temp_run (s : tmon) :
  avs_tmon_get_intr_temp s =
    (avs_tmon_code_to_temp (regs s AVS_TMON_TEMP_INT_CODE),
     log (EvRead AVS_TMON_TEMP_INT_CODE) s).
Proof. reflexivity. Qed.

Lemma trip_enable_run (type : avs_tmon_trip_type) (en : Z) (s : tmon) :
  let trip := avs_tmon_trips type in
  let val := rmw_enable (regs s (enable_offs trip)) (enable_mask trip) en in
  avs_tmon_trip_enable type en s =
    (tt, {| regs := upd (regs s) (enable_offs trip) val;
            trace := trace s ++ [EvRead (enable_offs trip);
                                 EvWrite (enable_offs trip) val] |}).
Proof.
  cbv zeta. unfold avs_tmon_trip_enable, bind, __raw_readl, __raw_writel, log,
    rmw_enable. cbn [regs trace]. rewrite <- app_assoc.
  destruct (en =? 0); reflexivity.
Qed.

Lemma set_trip_temp_run (type : avs_tmon_trip_type) (temp : Z) (s : tmon) :
  let trip := avs_tmon_trips type in
  let val := rmw_field (regs s (reg_offs trip))
               (avs_tmon_temp_to_code temp (is_low type)) (reg_shift trip) in
  avs_tmon_set_trip_temp type temp s =
    (tt, {| regs := upd (regs s) (reg_offs trip) val;
            trace := trace s ++ [EvRead (reg_offs trip);
                                 EvWrite (reg_offs trip) val] |}).
Proof.
  cbv zeta. unfold avs_tmon_set_trip_temp, bind, __raw_readl, __raw_writel, log,
    rmw_field. cbn [regs trace]. rewrite <- app_assoc.
  destruct (trip_mask_shape type) as [-> _]. reflexivity.
Qed.

Lemma upd_same (r : Z -> Z) (o v : Z) : upd r o v o = v.
Proof. unfold upd. now rewrite Z.eqb_refl. Qed.

Lemma upd_other (r : Z -> Z) (o v o' : Z) : o' <> o -> upd r o v o' = r o'.
Proof. intros H. unfold upd. now apply Z.eqb_neq in H as ->. Qed.

Lemma writes_app (t1 t2 : list event) :
  writes (t1 ++ t2) = writes t1 ++ writes t2.
Proof.
  induction t1 as [|e t1 IH]; [reflexivity|].
  destruct e; cbn; now rewrite IH.
Qed.

(** Words stay 32 bits wide under the driver's writes. *)
Lemma upd_u32 (s : tmon) (o v : Z) :
  regs_u32 s ->
  regs_u32 {| regs := upd (regs s) o (u32 v); trace := trace s |}.
Proof.
  intros H o'. cbn [regs]. unfold upd.
  destruct (o' =? o); [apply u32_range | apply H].
Qed.

Lemma writel_u32 (val offs : Z) (s : tmon) :
  regs_u32 s -> regs_u32 (after (__raw_writel val offs) s).
Proof. intros H. now apply (upd_u32 s offs val). Qed.

(** *** Effect of [avs_tmon_trip_enable] *)

Lemma trip_enable_regs (type : avs_tmon_trip_type) (en : Z) (s : tmon) (o : Z) :
  o <> enable_offs (avs_tmon_trips type) ->
  regs (after (avs_tmon_trip_enable type en) s) o = regs s o.
Proof.
  intros H. unfold after. rewrite trip_enable_run. cbn [snd regs].
  now apply upd_other.
Qed.

Lemma trip_enable_armed (type : avs_tmon_trip_type) (en : Z) (s : tmon) :
  trip_armed type (after (avs_tmon_trip_enable type en) s) = negb (en =? 0).
Proof.
  rewrite trip_armed_bit. unfold after. rewrite trip_enable_run.
  cbn [snd regs]. rewrite upd_same.
  destruct (trip_enable_shape type) as [-> Hb].
  rewrite rmw_enable_bit by lia. now rewrite Z.eqb_refl.
Qed.

Lemma trip_enable_armed_other (type type' : avs_tmon_trip_type) (en : Z)
      (s : tmon) :
  type' <> type ->
  trip_armed type' (after (avs_tmon_trip_enable type en) s) =
  trip_armed type' s.
Proof.
  intros Hne. rewrite !trip_armed_bit.
  destruct (Z.eq_dec (enable_offs (avs_tmon_trips type'))
                     (enable_offs (avs_tmon_trips type))) as [E|E].
  - unfold after. rewrite trip_enable_run. cbn [snd regs].
    rewrite E, upd_same.
    destruct (trip_enable_shape type) as [-> Hb].
    destruct (trip_enable_shape type') as [_ Hb'].
    rewrite rmw_enable_bit by lia.
    destruct (Z.eqb_spec (enable_bit type) (enable_bit type')) as [B|B];
      [|reflexivity].
    destruct type, type'; try congruence; discriminate.
  - now rewrite trip_enable_regs.
Qed.

Lemma trip_enable_code (type type' : avs_tmon_trip_type) (en : Z) (s : tmon) :
  trip_code type' (after (avs_tmon_trip_enable type en) s) = trip_code type' s.
Proof.
  unfold trip_code. rewrite trip_enable_regs; [reflexivity|].
  destruct type, type'; discriminate.
Qed.

(** *** Effect of [avs_tmon_set_trip_temp] *)

Lemma set_trip_temp_regs (type : avs_tmon_trip_type) (temp : Z) (s : tmon)
      (o : Z) :
  o <> reg_offs (avs_tmon_trips type) ->
  regs (after (avs_tmon_set_trip_temp type temp) s) o = regs s o.
Proof.
  intros H. unfold after. rewrite set_trip_temp_run. cbn [snd regs].
  now apply upd_other.
Qed.

Lemma set_trip_temp_armed (type type' : avs_tmon_trip_type) (temp : Z)
      (s : tmon) :
  trip_armed type' (after (avs_tmon_set_trip_temp type temp) s) =
  trip_armed type' s.
Proof.
  unfold trip_armed. rewrite set_trip_temp_regs; [reflexivity|].
  destruct type, type'; discriminate.
Qed.

Lemma set_trip_temp_code (type : avs_tmon_trip_type) (temp : Z) (s : tmon) :
  trip_code type (after (avs_tmon_set_trip_temp type temp) s) =
  avs_tmon_temp_to_code temp (is_low type).
Proof.
  unfold trip_code, after. rewrite set_trip_temp_run. cbn [snd regs].
  rewrite upd_same.
  destruct (trip_mask_shape type) as [-> Hs].
  apply rmw_field_get; [lia | apply temp_to_code_range].
Qed.

Lemma set_trip_temp_code_other (type type' : avs_tmon_trip_type) (temp : Z)
      (s : tmon) :
  type' <> type ->
  trip_code type' (after (avs_tmon_set_trip_temp type temp) s) =
  trip_code type' s.
Proof.
  intros Hne. unfold trip_code.
  destruct (Z.eq_dec (reg_offs (avs_tmon_trips type'))
                     (reg_offs (avs_tmon_trips type))) as [E|E].
  - unfold after. rewrite set_trip_temp_run. cbn [snd regs].
    rewrite E, upd_same.
    destruct (trip_mask_shape type') as [-> Hs'].
    destruct (trip_mask_shape type) as [_ Hs].
    rewrite rmw_field_other; [reflexivity | lia | lia |].
    destruct type, type'; try congruence; try discriminate;
      cbv [reg_shift avs_tmon_trips AVS_TMON_INT_THRESH_low_shift
             AVS_TMON_INT_THRESH_high_shift]; lia.
  - now rewrite set_trip_temp_regs.
Qed.

Lemma trip_enable_trace (type : avs_tmon_trip_type) (en : Z) (s : tmon) :
  let o := enable_offs (avs_tmon_trips type) in
  trace (after (avs_tmon_trip_enable type en) s) =
  trace s ++ [EvRead o;
              EvWrite o (rmw_enable (regs s o)
                           (enable_mask (avs_tmon_trips type)) en)].
Proof. cbv zeta. unfold after. now rewrite trip_enable_run. Qed.

Lemma set_trip_temp_trace (type : avs_tmon_trip_type) (temp : Z) (s : tmon) :
  let o := reg_offs (avs_tmon_trips type) in
  trace (after (avs_tmon_set_trip_temp type temp) s) =
  trace s ++ [EvRead o;
              EvWrite o (rmw_field (regs s o)
                           (avs_tmon_temp_to_code temp (is_low type))
                           (reg_shift (avs_tmon_trips type)))].
Proof. cbv zeta. unfold after. now rewrite set_trip_temp_run. Qed.

Lemma shift_mask_id (c sh : Z) :
  0 <= sh <= 22 -> 0 <= c <= 1023 ->
  Z.land (u32 (Z.shiftl c sh)) (field_mask sh) = Z.shiftl c sh.
Proof.
  intros Hs Hc. unfold field_mask.
  rewrite (small_land_ones c 10) by lia.
  rewrite u32_land_ones.
  Z.bitblast.
Qed.

(** C9: for every temperature and both rounding modes the code computed by
    [tempToCode] lies in [0, 1023]; shifted into the threshold field of any
    trip descriptor and masked, as [setTripTemperature] does, it loses no
    bit. *)
Theorem temp_to_code_fits_field (t : Z) (roundLow : bool) :
  0 <= avs_tmon_temp_to_code t roundLow <= 1023 /\
  forall type : avs_tmon_trip_type,
    let trip := avs_tmon_trips type in
    let code := avs_tmon_temp_to_code t roundLow in
    Z.land (u32 (Z.shiftl code (reg_shift trip))) (reg_msk trip) =
      Z.shiftl code (reg_shift trip) /\
    Z.shiftr (Z.shiftl code (reg_shift trip)) (reg_shift trip) = code.
Proof.
  split; [apply temp_to_code_range|].
  intros type trip code.
  destruct (trip_mask_shape type) as [Hm Hs]. fold trip in Hm, Hs.
  split.
  - rewrite Hm. apply shift_mask_id; [lia | apply temp_to_code_range].
  - rewrite Z.shiftr_shiftl_l, Z.sub_diag by lia. apply Z.shiftl_0_r.
Qed.

(** C8: [setTripTemperature] writes the threshold register of its trip and
    nothing else, changes no bit of that register outside the trip's field
    mask, and leaves the code of the temperature in the field.  So after
    setting HIGH to [h] and then LOW to [l], [getTripTemperature(HIGH)]
    returns what it returned before LOW was written: the temperature of the
    code of [h], which lies less than one code step (487) above [h] when [h]
    is inside the sensor's window, and above the nearest end of the window
    when it is not. *)
Theorem set_trip_temp_write_isolation :
  (forall (type : avs_tmon_trip_type) (temp : Z) (s : tmon),
      let trip := avs_tmon_trips type in
      let s' := after (avs_tmon_set_trip_temp type temp) s in
      (forall offs, offs <> reg_offs trip -> regs s' offs = regs s offs) /\
      (forall i, 0 <= i < 32 -> Z.testbit (reg_msk trip) i = false ->
                 Z.testbit (regs s' (reg_offs trip)) i =
                 Z.testbit (regs s (reg_offs trip)) i) /\
      trip_code type s' = avs_tmon_temp_to_code temp (is_low type)) /\
  (forall (h l : Z) (s : tmon),
      let s1 := after (avs_tmon_set_trip_temp TMON_TRIP_TYPE_HIGH h) s in
      let s2 := after (avs_tmon_set_trip_temp TMON_TRIP_TYPE_LOW l) s1 in
      let got := result (avs_tmon_get_trip_temp TMON_TRIP_TYPE_HIGH) s2 in
      got = result (avs_tmon_get_trip_temp TMON_TRIP_TYPE_HIGH) s1 /\
      got = avs_tmon_code_to_temp (avs_tmon_temp_to_code h false) /\
      (-88161 <= h <= 410040 -> h <= got < h + 487) /\
      (let sat := Z.max (-88161) (Z.min h 410040) in sat <= got < sat + 487)).
Proof.
  split.
  - intros type temp s trip s'. split; [|split].
    + intros offs Ho. now apply set_trip_temp_regs.
    + intros i Hi Hout. subst s'. unfold after.
      rewrite set_trip_temp_run. cbn [snd regs]. rewrite upd_same.
      destruct (trip_mask_shape type) as [Hm Hs]. fold trip in Hm, Hs.
      rewrite Hm in Hout. now apply rmw_field_frame.
    + apply set_trip_temp_code.
  - intros h l s s1 s2 got.
    assert (G : got = avs_tmon_code_to_temp (avs_tmon_temp_to_code h false)).
    { subst got s2 s1. unfold result. rewrite get_trip_temp_run. cbn [fst].
      rewrite set_trip_temp_code_other by discriminate.
      now rewrite set_trip_temp_code. }
    assert (T : -88161 <= h <= 410040 -> h <= got < h + 487).
    { intros Hh. rewrite G, code_to_temp_exact.
      pose proof (temp_to_code_range h false) as R.
      rewrite <- (small_land_ones _ 10) by lia.
      destruct (Z.eq_dec h 410040) as [->|Hne].
      - rewrite temp_to_code_above by lia. lia.
      - rewrite temp_to_code_inside by lia.
        pose proof (Z.div_mod (410040 - h) 487 ltac:(lia)) as E.
        pose proof (Z.mod_pos_bound (410040 - h) 487 ltac:(lia)) as B.
        lia. }
    split; [|split; [exact G|split; [exact T|]]].
    + rewrite G. subst s1. unfold result. rewrite get_trip_temp_run. cbn [fst].
      now rewrite set_trip_temp_code.
    + cbv zeta.
      destruct (Z.lt_ge_cases h (-88161)) as [Hlo|Hlo].
      { rewrite G, temp_to_code_below by lia.
        change (avs_tmon_code_to_temp 1023) with (-88161). lia. }
      destruct (Z.le_gt_cases h 410040) as [Hhi|Hhi].
      { specialize (T ltac:(lia)). lia. }
      rewrite G, temp_to_code_above by lia.
      change (avs_tmon_code_to_temp 0) with 410040. lia.
Qed.

Lemma set_trip_temp_write_isolation_witness :
  let s1 := after (avs_tmon_set_trip_temp TMON_TRIP_TYPE_HIGH 50000)
              hot_irq_state in
  let s2 := after (avs_tmon_set_trip_temp TMON_TRIP_TYPE_LOW 20000) s1 in
  regs s1 AVS_TMON_STATUS = regs hot_irq_state AVS_TMON_STATUS /\
  Z.testbit (regs s1 AVS_TMON_INT_THRESH) 3 =
    Z.testbit (regs hot_irq_state AVS_TMON_INT_THRESH) 3 /\
  50000 <= result (avs_tmon_get_trip_temp TMON_TRIP_TYPE_HIGH) s2 < 50000 + 487.
Proof.
  cbv zeta. split; [|split].
  - apply (proj1 (proj1 set_trip_temp_write_isolation
                    TMON_TRIP_TYPE_HIGH 50000 hot_irq_state)).
    discriminate.
  - apply (proj1 (proj2 (proj1 set_trip_temp_write_isolation
                           TMON_TRIP_TYPE_HIGH 50000 hot_irq_state))).
    + lia.
    + reflexivity.
  - apply (proj1 (proj2 (proj2 (proj2 set_trip_temp_write_isolation
                                  50000 20000 hot_irq_state)))).
    lia.
Defined.

(** ** Reading the temperature (claim C3) *)

Lemma get_temp_run (socdata : brcmstb_thermal_of_data) (s : tmon) :
  let status := regs s AVS_TMON_STATUS in
  let code := Z.shiftr (Z.land status (status_data_mask socdata))
                       (status_data_shift socdata) in
  brcmstb_get_temp socdata s =
    (if Z.land status (status_valid_mask socdata) =? 0 then (- EIO, None)
     else (0, Some (Z.max 0 (avs_tmon_code_to_temp code))),
     log (EvRead AVS_TMON_STATUS) s).
Proof.
  cbv zeta. unfold brcmstb_get_temp, bind, __raw_readl, ret.
  destruct (_ =? 0); [reflexivity|].
  destruct (Z.ltb_spec (avs_tmon_code_to_temp
    (Z.shiftr (Z.land (regs s AVS_TMON_STATUS) (status_data_mask socdata))
       (status_data_shift socdata))) 0).
  - now rewrite Z.max_l by lia.
  - now rewrite Z.max_r by lia.
Qed.

(** C3: [brcmstb_get_temp] fails (with [-EIO], the driver's "not ready")
    exactly when the status word has no bit of the variant's valid mask set
    (bit 11 on BCM7445, bit 10 on BCM2711); it then stores no temperature,
    and its only register access is the read of the status register, so no
    register changes.  When the valid bit is set it returns 0 and stores
    [max 0 (codeToTemp data)], where [data] is the status word masked with
    the variant's data mask and shifted right by the variant's shift. *)
Theorem get_temp_valid_bit (socdata : brcmstb_thermal_of_data) (s : tmon) :
  let status := regs s AVS_TMON_STATUS in
  let valid := Z.land status (status_valid_mask socdata) in
  let data := Z.shiftr (Z.land status (status_data_mask socdata))
                       (status_data_shift socdata) in
  let r := result (brcmstb_get_temp socdata) s in
  let s' := after (brcmstb_get_temp socdata) s in
  (r = (- EIO, None) <-> valid = 0) /\
  (valid = 0 ->
   regs s' = regs s /\ writes (trace s') = writes (trace s) /\
   trace s' = trace s ++ [EvRead AVS_TMON_STATUS]) /\
  (valid <> 0 -> r = (0, Some (Z.max 0 (avs_tmon_code_to_temp data)))) /\
  (Z.land status (status_valid_mask bcm7445_thermal_of_data) = 0 <->
   Z.testbit status 11 = false) /\
  (Z.land status (status_valid_mask bcm2711_thermal_of_data) = 0 <->
   Z.testbit status 10 = false).
Proof.
  intros status valid data r s'.
  subst r s'. unfold result, after. rewrite get_temp_run.
  fold status. fold valid. fold data. cbn [fst snd].
  split; [|split; [|split; [|split]]].
  - destruct (Z.eqb_spec valid 0) as [E|E]; split; intros H;
      try assumption; try reflexivity; [discriminate | contradiction].
  - intros _. cbn [regs trace log]. rewrite writes_app. cbn [writes].
    now rewrite app_nil_r.
  - intros H. destruct (Z.eqb_spec valid 0); [contradiction | reflexivity].
  - change (status_valid_mask bcm7445_thermal_of_data) with (Z.shiftl 1 11).
    rewrite <- Z.eqb_eq, bit_mask_test by lia. apply negb_true_iff.
  - change (status_valid_mask bcm2711_thermal_of_data) with (Z.shiftl 1 10).
    rewrite <- Z.eqb_eq, bit_mask_test by lia. apply negb_true_iff.
Qed.

Lemma get_temp_valid_bit_witness :
  (regs (after (brcmstb_get_temp bcm7445_thermal_of_data) stale_status_state)
   = regs stale_status_state /\
   writes (trace (after (brcmstb_get_temp bcm7445_thermal_of_data)
                    stale_status_state))
   = writes (trace stale_status_state) /\
   trace (after (brcmstb_get_temp bcm7445_thermal_of_data)
            stale_status_state)
   = trace stale_status_state ++ [EvRead AVS_TMON_STATUS]) /\
  result (brcmstb_get_temp bcm7445_thermal_of_data) fresh_status_state
  = (0, Some 117840) /\
  result (brcmstb_get_temp bcm7445_thermal_of_data) cold_status_state
  = (0, Some 0).
Proof.
  split; [|split].
  - apply (proj1 (proj2 (get_temp_valid_bit bcm7445_thermal_of_data
                           stale_status_state))).
    reflexivity.
  - apply (proj1 (proj2 (proj2 (get_temp_valid_bit bcm7445_thermal_of_data
                                  fresh_status_state)))).
    discriminate.
  - apply (proj1 (proj2 (proj2 (get_temp_valid_bit bcm7445_thermal_of_data
                                  cold_status_state)))).
    discriminate.
Defined.

(** ** The interrupt handler (claim C1) *)

Lemma notifications_app (t1 t2 : list event) :
  notifications (t1 ++ t2) = notifications t1 ++ notifications t2.
Proof.
  induction t1 as [|e t1 IH]; [reflexivity|].
  destruct e; cbn; now rewrite IH.
Qed.

(** The handler, with its three reads done and its two tests still to be
    decided. *)
Lemma irq_thread_run (s : tmon) :
  let low := avs_tmon_code_to_temp (trip_code TMON_TRIP_TYPE_LOW s) in
  let high := avs_tmon_code_to_temp (trip_code TMON_TRIP_TYPE_HIGH s) in
  let intr := avs_tmon_code_to_temp (regs s AVS_TMON_TEMP_INT_CODE) in
  let s3 := {| regs := regs s;
               trace := trace s ++ [EvRead AVS_TMON_INT_THRESH;
                                    EvRead AVS_TMON_INT_THRESH;
                                    EvRead AVS_TMON_TEMP_INT_CODE] |} in
  let s4 := if intr >=? high
            then after (avs_tmon_trip_enable TMON_TRIP_TYPE_HIGH 0) s3
            else s3 in
  let s5 := if intr <=? low
            then after (avs_tmon_trip_enable TMON_TRIP_TYPE_LOW 0) s4
            else s4 in
  brcmstb_tmon_irq_thread s = (IRQ_HANDLED, log (EvNotify intr) s5).
Proof.
  cbv zeta. unfold brcmstb_tmon_irq_thread, bind.
  rewrite !get_trip_temp_run. cbn [regs trace log].
  unfold avs_tmon_get_intr_temp, bind, __raw_readl, ret, log.
  cbn [regs trace]. rewrite <- !app_assoc. cbn [app].
  change (trip_code TMON_TRIP_TYPE_HIGH _)
    with (trip_code TMON_TRIP_TYPE_HIGH s).
  destruct (_ >=? _), (_ <=? _);
    unfold after, thermal_zone_device_update, log, ret;
    rewrite ?trip_enable_run; cbn [fst snd]; rewrite ?trip_enable_run;
    reflexivity.
Qed.

(** C1: the handler always returns [IRQ_HANDLED], notifies the zone exactly
    once with the temperature of the code captured in [TEMP_INT_CODE], and
    never reads the status register.  When that temperature is at or above
    the HIGH threshold and strictly above the LOW threshold, the handler's
    only write clears the HIGH enable bit, so HIGH is disarmed and the LOW
    enable bit is as it was. *)
Theorem irq_thread_disarms_high (s : tmon) :
  let intr := result avs_tmon_get_intr_temp s in
  let high := result (avs_tmon_get_trip_temp TMON_TRIP_TYPE_HIGH) s in
  let low := result (avs_tmon_get_trip_temp TMON_TRIP_TYPE_LOW) s in
  let s' := after brcmstb_tmon_irq_thread s in
  let en := AVS_TMON_EN_TEMP_INT_SRCS in
  result brcmstb_tmon_irq_thread s = IRQ_HANDLED /\
  intr = avs_tmon_code_to_temp (regs s AVS_TMON_TEMP_INT_CODE) /\
  (exists evs : list event,
      trace s' = trace s ++ evs /\
      notifications evs = [intr] /\
      ~ In AVS_TMON_STATUS (reads evs)) /\
  (intr >= high -> intr > low ->
   trip_armed TMON_TRIP_TYPE_HIGH s' = false /\
   trip_armed TMON_TRIP_TYPE_LOW s' = trip_armed TMON_TRIP_TYPE_LOW s /\
   Z.testbit (regs s' en) 1 = false /\
   Z.testbit (regs s' en) 0 = Z.testbit (regs s en) 0 /\
   (forall offs, offs <> en -> regs s' offs = regs s offs) /\
   trace s' = trace s ++ [EvRead AVS_TMON_INT_THRESH;
                          EvRead AVS_TMON_INT_THRESH;
                          EvRead AVS_TMON_TEMP_INT_CODE;
                          EvRead en;
                          EvWrite en (rmw_enable (regs s en) (BIT 1) 0);
                          EvNotify intr]).
Proof.
  intros intr high low s' en.
  subst intr high low s'. unfold result, after.
  rewrite irq_thread_run, get_intr_temp_run, !get_trip_temp_run.
  cbn [fst snd].
  set (intr := avs_tmon_code_to_temp (regs s AVS_TMON_TEMP_INT_CODE)).
  set (high := avs_tmon_code_to_temp (trip_code TMON_TRIP_TYPE_HIGH s)).
  set (low := avs_tmon_code_to_temp (trip_code TMON_TRIP_TYPE_LOW s)).
  set (s3 := {| regs := regs s; trace := _ |}).
  split; [reflexivity|]. split; [reflexivity|]. split.
  - destruct (intr >=? high), (intr <=? low); cbn [log trace];
      rewrite ?trip_enable_trace; subst s3; cbn [trace];
      rewrite <- ?app_assoc; cbn [app];
      (eexists; split; [reflexivity|]);
      (split; [reflexivity | cbn; intuition discriminate]).
  - intros Hh Hl.
    destruct (Z.geb_spec intr high); [|lia].
    destruct (Z.leb_spec intr low); [lia|].
    set (s4 := after (avs_tmon_trip_enable TMON_TRIP_TYPE_HIGH 0) s3).
    assert (A1 : trip_armed TMON_TRIP_TYPE_HIGH s4 = false)
      by apply trip_enable_armed.
    assert (A0 : trip_armed TMON_TRIP_TYPE_LOW s4 =
                 trip_armed TMON_TRIP_TYPE_LOW s)
      by (unfold s4; now rewrite trip_enable_armed_other by discriminate).
    split; [exact A1|]. split; [exact A0|].
    rewrite trip_armed_bit in A1.
    rewrite (trip_armed_bit _ s4), (trip_armed_bit _ s) in A0.
    split; [exact A1|]. split; [exact A0|]. split.
    + intros offs Ho. cbn [log regs]. unfold s4.
      now rewrite trip_enable_regs.
    + cbn [log trace]. unfold s4. rewrite trip_enable_trace.
      subst s3. cbn [trace regs]. rewrite <- !app_assoc. reflexivity.
Qed.

Lemma irq_thread_disarms_high_witness :
  trip_armed TMON_TRIP_TYPE_HIGH (after brcmstb_tmon_irq_thread hot_irq_state)
  = false /\
  trip_armed TMON_TRIP_TYPE_LOW (after brcmstb_tmon_irq_thread hot_irq_state)
  = trip_armed TMON_TRIP_TYPE_LOW hot_irq_state.
Proof.
  pose proof (proj2 (proj2 (proj2 (irq_thread_disarms_high hot_irq_state))))
    as H.
  cbv zeta in H.
  assert (Hh : result avs_tmon_get_intr_temp hot_irq_state >=
               result (avs_tmon_get_trip_temp TMON_TRIP_TYPE_HIGH)
                 hot_irq_state) by (vm_compute; discriminate).
  assert (Hl : result avs_tmon_get_intr_temp hot_irq_state >
               result (avs_tmon_get_trip_temp TMON_TRIP_TYPE_LOW)
                 hot_irq_state) by reflexivity.
  destruct (H Hh Hl) as (A & B & _).
  split; assumption.
Defined.

(** ** Setting the trip window (claims C2, C10) *)

(** The LOW half and the HIGH half of [brcmstb_set_trips] leave a state
    that depends on the sentinel test only. *)
Lemma set_trips_after (low high : Z) (s : tmon) :
  let s1 := if low <=? - INT_MAX
            then after (avs_tmon_trip_enable TMON_TRIP_TYPE_LOW 0) s
            else after (avs_tmon_trip_enable TMON_TRIP_TYPE_LOW 1)
                   (after (avs_tmon_set_trip_temp TMON_TRIP_TYPE_LOW low) s) in
  let s2 := if high =? INT_MAX
            then after (avs_tmon_trip_enable TMON_TRIP_TYPE_HIGH 0) s1
            else after (avs_tmon_trip_enable TMON_TRIP_TYPE_HIGH 1)
                   (after (avs_tmon_set_trip_temp TMON_TRIP_TYPE_HIGH high) s1)
  in
  after (brcmstb_set_trips low high) s = s2.
Proof.
  cbv zeta. unfold brcmstb_set_trips.
  change (s32 (- INT_MAX)) with (- INT_MAX).
  rewrite !after_bind.
  destruct (low <=? - INT_MAX), (high =? INT_MAX);
    rewrite ?after_bind; reflexivity.
Qed.

Lemma set_trips_half_trace (type : avs_tmon_trip_type) (absent : bool)
      (temp : Z) (s : tmon) :
  let s' := if absent
            then after (avs_tmon_trip_enable type 0) s
            else after (avs_tmon_trip_enable type 1)
                   (after (avs_tmon_set_trip_temp type temp) s) in
  exists evs : list event,
    trace s' = trace s ++ evs /\
    map fst (writes evs) =
      if absent then [enable_offs (avs_tmon_trips type)]
      else [reg_offs (avs_tmon_trips type); enable_offs (avs_tmon_trips type)].
Proof.
  cbv zeta. destruct absent.
  - rewrite trip_enable_trace. eexists. split; reflexivity.
  - rewrite trip_enable_trace, set_trip_temp_trace, <- app_assoc.
    eexists. split; reflexivity.
Qed.

(** One half of [brcmstb_set_trips], event by event: an absent bound costs
    one read-modify-write of the enable register; a present bound costs a
    read-modify-write of the threshold register and then one of the enable
    register. *)
Lemma set_trips_half_run (type : avs_tmon_trip_type) (absent : bool)
      (temp : Z) (s : tmon) :
  let trip := avs_tmon_trips type in
  let t := rmw_field (regs s (reg_offs trip))
             (avs_tmon_temp_to_code temp (is_low type)) (reg_shift trip) in
  let e := rmw_enable (regs s (enable_offs trip)) (enable_mask trip)
             (if absent then 0 else 1) in
  let s' := if absent
            then after (avs_tmon_trip_enable type 0) s
            else after (avs_tmon_trip_enable type 1)
                   (after (avs_tmon_set_trip_temp type temp) s) in
  trace s' =
    trace s ++ rmw_events (if absent then [(enable_offs trip, e)]
                           else [(reg_offs trip, t); (enable_offs trip, e)]) /\
  regs s' =
    upd (if absent then regs s else upd (regs s) (reg_offs trip) t)
        (enable_offs trip) e.
Proof.
  cbv zeta. destruct absent.
  - unfold after. rewrite trip_enable_run. cbn [snd regs trace].
    split; reflexivity.
  - unfold after. rewrite set_trip_temp_run. cbn [snd].
    rewrite trip_enable_run. cbn [snd regs trace].
    rewrite <- app_assoc.
    destruct type; split; reflexivity.
Qed.

(** Push an observation through the runs of the register helpers. *)
Ltac trip_simpl :=
  repeat first
    [ rewrite trip_enable_armed
    | rewrite trip_enable_armed_other by discriminate
    | rewrite set_trip_temp_armed
    | rewrite trip_enable_code
    | rewrite set_trip_temp_code
    | rewrite set_trip_temp_code_other by discriminate ].

(** C2: [brcmstb_set_trips] leaves the LOW trip disarmed exactly when
    [low <= -INT_MAX] and the HIGH trip disarmed exactly when
    [high = INT_MAX].  A disarmed trip keeps the threshold code it had and a
    single write, to the enable register, is made for it; an armed trip holds
    the code of its bound (rounded low for LOW, high for HIGH) and the
    threshold register is written before the enable register.  The events
    of the call are given one by one: the LOW half comes first; for a
    present bound the word written to the threshold register carries the
    code in that trip's field and leaves the other field alone, and the
    next write sets that trip's enable bit and leaves the other bit alone;
    for an absent bound the only write clears that trip's enable bit.  For
    [low = -INT_MAX] and [high = 50000], LOW is disarmed and HIGH is armed
    with code [tempToCode 50000 false = 739]. *)
Theorem set_trips_sentinels (low high : Z) (s : tmon) :
  let s' := after (brcmstb_set_trips low high) s in
  let en := AVS_TMON_EN_TEMP_INT_SRCS in
  let thresh := AVS_TMON_INT_THRESH in
  (trip_armed TMON_TRIP_TYPE_LOW s' = false <-> low <= - INT_MAX) /\
  (trip_armed TMON_TRIP_TYPE_HIGH s' = false <-> high = INT_MAX) /\
  (low <= - INT_MAX ->
   trip_code TMON_TRIP_TYPE_LOW s' = trip_code TMON_TRIP_TYPE_LOW s) /\
  (low > - INT_MAX ->
   trip_code TMON_TRIP_TYPE_LOW s' = avs_tmon_temp_to_code low true) /\
  (high = INT_MAX ->
   trip_code TMON_TRIP_TYPE_HIGH s' = trip_code TMON_TRIP_TYPE_HIGH s) /\
  (high <> INT_MAX ->
   trip_code TMON_TRIP_TYPE_HIGH s' = avs_tmon_temp_to_code high false) /\
  (exists evs : list event,
      trace s' = trace s ++ evs /\
      map fst (writes evs) =
        (if low <=? - INT_MAX then [en] else [thresh; en]) ++
        (if high =? INT_MAX then [en] else [thresh; en]) /\
      let t1 := rmw_field (regs s thresh) (avs_tmon_temp_to_code low true)
                  AVS_TMON_INT_THRESH_low_shift in
      let e1 := rmw_enable (regs s en) AVS_TMON_EN_TEMP_INT_SRCS_low
                  (if low <=? - INT_MAX then 0 else 1) in
      let th1 := if low <=? - INT_MAX then regs s thresh else t1 in
      let t2 := rmw_field th1 (avs_tmon_temp_to_code high false)
                  AVS_TMON_INT_THRESH_high_shift in
      let e2 := rmw_enable e1 AVS_TMON_EN_TEMP_INT_SRCS_high
                  (if high =? INT_MAX then 0 else 1) in
      evs = rmw_events
              ((if low <=? - INT_MAX then [(en, e1)]
                else [(thresh, t1); (en, e1)]) ++
               (if high =? INT_MAX then [(en, e2)]
                else [(thresh, t2); (en, e2)])) /\
      (Z.testbit e1 0 = negb (low <=? - INT_MAX) /\
       Z.testbit e1 1 = Z.testbit (regs s en) 1) /\
      (Z.testbit e2 1 = negb (high =? INT_MAX) /\
       Z.testbit e2 0 = Z.testbit e1 0) /\
      (Z.shiftr (Z.land t1 AVS_TMON_INT_THRESH_low_msk)
                AVS_TMON_INT_THRESH_low_shift
       = avs_tmon_temp_to_code low true /\
       Z.land t1 AVS_TMON_INT_THRESH_high_msk
       = Z.land (regs s thresh) AVS_TMON_INT_THRESH_high_msk) /\
      (Z.shiftr (Z.land t2 AVS_TMON_INT_THRESH_high_msk)
                AVS_TMON_INT_THRESH_high_shift
       = avs_tmon_temp_to_code high false /\
       Z.land t2 AVS_TMON_INT_THRESH_low_msk
       = Z.land th1 AVS_TMON_INT_THRESH_low_msk)) /\
  (let p := after (brcmstb_set_trips (- INT_MAX) 50000) s in
   trip_armed TMON_TRIP_TYPE_LOW p = false /\
   trip_armed TMON_TRIP_TYPE_HIGH p = true /\
   trip_code TMON_TRIP_TYPE_HIGH p = avs_tmon_temp_to_code 50000 false /\
   avs_tmon_temp_to_code 50000 false = 739).
Proof.
  intros s' en thresh. subst s'.
  rewrite set_trips_after. cbv zeta.
  split; [|split; [|split; [|split; [|split; [|split; [|split]]]]]].
  - destruct (Z.leb_spec low (- INT_MAX)), (Z.eqb_spec high INT_MAX);
      trip_simpl; cbn [Z.eqb negb]; split; intros;
      solve [reflexivity | lia | discriminate].
  - destruct (Z.leb_spec low (- INT_MAX)), (Z.eqb_spec high INT_MAX);
      trip_simpl; cbn [Z.eqb negb]; split; intros;
      solve [reflexivity | assumption | contradiction | discriminate].
  - intros Hl. destruct (Z.leb_spec low (- INT_MAX)); [|lia].
    destruct (high =? INT_MAX); now trip_simpl.
  - intros Hl. destruct (Z.leb_spec low (- INT_MAX)); [lia|].
    destruct (high =? INT_MAX); now trip_simpl.
  - intros Hh. destruct (Z.eqb_spec high INT_MAX); [|contradiction].
    destruct (low <=? - INT_MAX); now trip_simpl.
  - intros Hh. destruct (Z.eqb_spec high INT_MAX); [contradiction|].
    destruct (low <=? - INT_MAX); now trip_simpl.
  - destruct (set_trips_half_run TMON_TRIP_TYPE_LOW
                (low <=? - INT_MAX) low s) as (T1 & R1).
    cbv zeta in T1, R1.
    set (s1 := if low <=? - INT_MAX then _ else _) in *.
    destruct (set_trips_half_run TMON_TRIP_TYPE_HIGH
                (high =? INT_MAX) high s1) as (T2 & R2).
    cbv zeta in T2, R2.
    set (s2 := if high =? INT_MAX then _ else _) in *.
    pose proof (temp_to_code_range low true) as Cl.
    pose proof (temp_to_code_range high false) as Ch.
    rewrite R1 in T2.
    eexists. split; [rewrite T2, T1, <- app_assoc; reflexivity|].
    split; [destruct (low <=? - INT_MAX), (high =? INT_MAX); reflexivity|].
    cbv zeta.
    split; [destruct (low <=? - INT_MAX), (high =? INT_MAX); reflexivity|].
    change AVS_TMON_EN_TEMP_INT_SRCS_low with (Z.shiftl 1 0).
    change AVS_TMON_EN_TEMP_INT_SRCS_high with (Z.shiftl 1 1).
    change AVS_TMON_INT_THRESH_low_msk with (field_mask 1).
    change AVS_TMON_INT_THRESH_high_msk with (field_mask 17).
    change AVS_TMON_INT_THRESH_low_shift with 1.
    change AVS_TMON_INT_THRESH_high_shift with 17.
    rewrite !rmw_enable_bit by lia. cbn [Z.eqb].
    split; [split; [now destruct (low <=? - INT_MAX) | reflexivity]|].
    split; [split; [now destruct (high =? INT_MAX) | reflexivity]|].
    split; (split; [apply rmw_field_get | apply rmw_field_other]; lia).
  - rewrite set_trips_after. cbv zeta.
    change (- INT_MAX <=? - INT_MAX) with true.
    change (50000 =? INT_MAX) with false. cbv iota.
    trip_simpl. repeat split.
Qed.

Lemma set_trips_sentinels_witness :
  trip_code TMON_TRIP_TYPE_LOW
    (after (brcmstb_set_trips (- 2147483648) 2147483646) hot_irq_state)
  = trip_code TMON_TRIP_TYPE_LOW hot_irq_state /\
  trip_code TMON_TRIP_TYPE_HIGH
    (after (brcmstb_set_trips (- 2147483648) 2147483646) hot_irq_state)
  = avs_tmon_temp_to_code 2147483646 false /\
  trip_code TMON_TRIP_TYPE_LOW
    (after (brcmstb_set_trips 20000 INT_MAX) hot_irq_state)
  = avs_tmon_temp_to_code 20000 true /\
  trip_code TMON_TRIP_TYPE_HIGH
    (after (brcmstb_set_trips 20000 INT_MAX) hot_irq_state)
  = trip_code TMON_TRIP_TYPE_HIGH hot_irq_state.
Proof.
  pose proof (set_trips_sentinels (- 2147483648) 2147483646 hot_irq_state)
    as (_ & _ & A & _ & _ & B & _).
  pose proof (set_trips_sentinels 20000 INT_MAX hot_irq_state)
    as (_ & _ & _ & C & D & _).
  split; [apply A; vm_compute; discriminate|].
  split; [apply B; discriminate|].
  split; [apply C; reflexivity|].
  apply D; reflexivity.
Defined.

(** C10: [brcmstb_set_trips] returns 0 for every pair of bounds and every
    register state. *)
Theorem set_trips_returns_zero (low high : Z) (s : tmon) :
  result (brcmstb_set_trips low high) s = 0.
Proof.
  unfold brcmstb_set_trips. rewrite !result_bind. reflexivity.
Qed.

(** * Further properties of the driver *)

(** ** The converter, both rounding modes *)

(** X1: a colder temperature never gets a smaller code: [tempToCode] is
    monotonically decreasing in the temperature, saturated ranges included,
    in both rounding modes. *)
Theorem temp_to_code_antitone (t1 t2 : Z) (low : bool) :
  t1 <= t2 ->
  avs_tmon_temp_to_code t2 low <= avs_tmon_temp_to_code t1 low.
Proof.
  intros H.
  pose proof (temp_to_code_range t1 low) as R1.
  pose proof (temp_to_code_range t2 low) as R2.
  destruct (Z.lt_ge_cases t1 (-88161)) as [L1|L1].
  { rewrite (temp_to_code_below t1) by lia. lia. }
  destruct (Z.lt_ge_cases t2 410040) as [H2|H2].
  2:{ rewrite (temp_to_code_above t2) by lia. lia. }
  rewrite !temp_to_code_inside by lia.
  destruct low; apply Z.div_le_mono; lia.
Qed.

Lemma temp_to_code_antitone_witness :
  avs_tmon_temp_to_code 50000 true <= avs_tmon_temp_to_code 20000 true.
Proof. apply temp_to_code_antitone. lia. Defined.

(** X2: decoding any register word as a code and encoding the temperature
    again gives the low ten bits of the word, whichever way the encoder
    rounds. *)
Theorem code_round_trip_both_modes (code : Z) (low : bool) :
  avs_tmon_temp_to_code (avs_tmon_code_to_temp code) low = Z.land code 0x3ff.
Proof.
  rewrite code_to_temp_exact.
  pose proof (land_code_range code) as R. unfold AVS_TMON_TEMP_MAX in R.
  set (c := Z.land code 1023) in *.
  destruct (Z.eq_dec c 0) as [->|Hnz]; [now destruct low|].
  rewrite temp_to_code_inside by lia.
  replace (410040 - (410040 - c * 487)) with (c * 487) by lia.
  destruct low.
  - replace (c * 487 + 486) with (486 + c * 487) by lia.
    rewrite Z.div_add by lia. reflexivity.
  - apply Z.div_mul. lia.
Qed.

(** The temperature a trip is really set to when [t] is asked for. *)
Lemma quantised_temp (t : Z) (low : bool) :
  -88161 <= t <= 410040 ->
  let g := avs_tmon_code_to_temp (avs_tmon_temp_to_code t low) in
  if low then t - 487 < g <= t else t <= g < t + 487.
Proof.
  intros Ht. cbv zeta. rewrite code_to_temp_exact.
  pose proof (temp_to_code_range t low) as R.
  rewrite <- (small_land_ones _ 10) by lia.
  destruct (Z.eq_dec t 410040) as [->|Hne].
  { rewrite temp_to_code_above by lia. destruct low; lia. }
  rewrite temp_to_code_inside by lia.
  destruct low.
  - pose proof (Z.div_mod (410040 - t + 486) 487 ltac:(lia)) as E.
    pose proof (Z.mod_pos_bound (410040 - t + 486) 487 ltac:(lia)) as B.
    lia.
  - pose proof (Z.div_mod (410040 - t) 487 ltac:(lia)) as E.
    pose proof (Z.mod_pos_bound (410040 - t) 487 ltac:(lia)) as B.
    lia.
Qed.

(** X3: inside the sensor's window the code of a temperature decodes to
    within one step (487) of it, on the cold side when rounding low and on
    the hot side otherwise; below the window it decodes to -88161 and above
    it to 410040. *)
Theorem temp_quantisation (t : Z) (low : bool) :
  let g := avs_tmon_code_to_temp (avs_tmon_temp_to_code t low) in
  (-88161 <= t <= 410040 ->
   if low then t - 487 < g <= t else t <= g < t + 487) /\
  (t < -88161 -> g = -88161) /\
  (410040 < t -> g = 410040).
Proof.
  cbv zeta. split; [|split].
  - apply quantised_temp.
  - intros H. now rewrite temp_to_code_below.
  - intros H. rewrite temp_to_code_above by lia. reflexivity.
Qed.

Lemma temp_quantisation_witness :
  (50000 - 487 <
     avs_tmon_code_to_temp (avs_tmon_temp_to_code 50000 true) <= 50000) /\
  avs_tmon_code_to_temp (avs_tmon_temp_to_code (-100000) false) = -88161 /\
  avs_tmon_code_to_temp (avs_tmon_temp_to_code 500000 true) = 410040.
Proof.
  split; [|split].
  - apply (proj1 (temp_quantisation 50000 true)). lia.
  - apply (proj1 (proj2 (temp_quantisation (-100000) false))). lia.
  - apply (proj2 (proj2 (temp_quantisation 500000 true))). lia.
Defined.

Lemma code_to_temp_range (code : Z) :
  -88161 <= avs_tmon_code_to_temp code <= 410040.
Proof.
  rewrite code_to_temp_exact.
  pose proof (land_code_range code) as R. unfold AVS_TMON_TEMP_MAX in R. lia.
Qed.

(** ** Reading the temperature: range and effects *)

(** X4: [brcmstb_get_temp] never changes a register and its only access is
    one read of the status register, whether it succeeds or not.  When it
    stores a temperature it returns 0 and the temperature lies in
    [0, 410040]; it is 0 exactly when the ten-bit data code is 842 or more
    (the codes whose temperature is negative). *)
Theorem get_temp_range_and_effects
        (socdata : brcmstb_thermal_of_data) (s : tmon) :
  let status := regs s AVS_TMON_STATUS in
  let data := Z.shiftr (Z.land status (status_data_mask socdata))
                       (status_data_shift socdata) in
  let r := result (brcmstb_get_temp socdata) s in
  let s' := after (brcmstb_get_temp socdata) s in
  regs s' = regs s /\
  trace s' = trace s ++ [EvRead AVS_TMON_STATUS] /\
  (snd r = None -> fst r = - EIO) /\
  (forall t : Z,
      snd r = Some t ->
      fst r = 0 /\ 0 <= t <= 410040 /\
      (t = 0 <-> 842 <= Z.land data 0x3ff)).
Proof.
  intros status data r s'. subst r s'. unfold result, after.
  rewrite get_temp_run. fold status. fold data. cbn [fst snd].
  split; [reflexivity|]. split; [reflexivity|].
  destruct (_ =? 0); cbn [fst snd].
  - split; [reflexivity | discriminate].
  - split; [discriminate|].
    intros t [= <-]. split; [reflexivity|].
    pose proof (code_to_temp_range data) as R.
    pose proof (land_code_range data) as L. unfold AVS_TMON_TEMP_MAX in L.
    rewrite code_to_temp_exact in *. lia.
Qed.

Lemma get_temp_range_and_effects_witness :
  fst (result (brcmstb_get_temp bcm7445_thermal_of_data) cold_status_state)
  = 0 /\
  0 <= 0 <= 410040 /\
  (0 = 0 <->
   842 <= Z.land (Z.shiftr
                    (Z.land (regs cold_status_state AVS_TMON_STATUS)
                       (status_data_mask bcm7445_thermal_of_data))
                    (status_data_shift bcm7445_thermal_of_data)) 0x3ff) /\
  fst (result (brcmstb_get_temp bcm7445_thermal_of_data) stale_status_state)
  = - EIO.
Proof.
  pose proof (get_temp_range_and_effects bcm7445_thermal_of_data
                cold_status_state) as (_ & _ & _ & H).
  pose proof (get_temp_range_and_effects bcm7445_thermal_of_data
                stale_status_state) as (_ & _ & N & _).
  destruct (H 0 eq_refl) as (A & B & C).
  split; [exact A|]. split; [exact B|]. split; [exact C|].
  apply N. reflexivity.
Defined.

(** ** Arming and disarming a trip *)

(** X5: [avs_tmon_trip_enable] arms the trip exactly when [en] is not 0.
    It changes no register but the trip's enable register and, there, no
    bit of the 32-bit word but the trip's enable bit; the enablement of the
    other trips and every threshold code stay as they were. *)
Theorem trip_enable_isolation
        (type : avs_tmon_trip_type) (en : Z) (s : tmon) :
  let trip := avs_tmon_trips type in
  let s' := after (avs_tmon_trip_enable type en) s in
  (trip_armed type s' = true <-> en <> 0) /\
  (forall offs, offs <> enable_offs trip -> regs s' offs = regs s offs) /\
  (forall i, 0 <= i < 32 -> i <> enable_bit type ->
             Z.testbit (regs s' (enable_offs trip)) i =
             Z.testbit (regs s (enable_offs trip)) i) /\
  (forall type', type' <> type -> trip_armed type' s' = trip_armed type' s) /\
  (forall type', trip_code type' s' = trip_code type' s).
Proof.
  intros trip s'. subst s'.
  split; [|split; [|split; [|split]]].
  - rewrite trip_enable_armed.
    destruct (Z.eqb_spec en 0); cbn; split; intros; congruence.
  - intros offs Ho. now apply trip_enable_regs.
  - intros i Hi Hne. unfold after. rewrite trip_enable_run.
    cbn [snd regs]. rewrite upd_same.
    destruct (trip_enable_shape type) as [-> Hb].
    rewrite rmw_enable_bit by lia.
    destruct (Z.eqb_spec (enable_bit type) i); [congruence | reflexivity].
  - intros type' Hne. now apply trip_enable_armed_other.
  - intros type'. apply trip_enable_code.
Qed.

Lemma trip_enable_isolation_witness :
  trip_armed TMON_TRIP_TYPE_RESET
    (after (avs_tmon_trip_enable TMON_TRIP_TYPE_RESET 2) hot_irq_state) = true
  /\
  regs (after (avs_tmon_trip_enable TMON_TRIP_TYPE_RESET 2) hot_irq_state)
       AVS_TMON_INT_THRESH
  = regs hot_irq_state AVS_TMON_INT_THRESH /\
  Z.testbit
    (regs (after (avs_tmon_trip_enable TMON_TRIP_TYPE_HIGH 0) hot_irq_state)
          AVS_TMON_EN_TEMP_INT_SRCS) 0
  = Z.testbit (regs hot_irq_state AVS_TMON_EN_TEMP_INT_SRCS) 0 /\
  trip_armed TMON_TRIP_TYPE_LOW
    (after (avs_tmon_trip_enable TMON_TRIP_TYPE_HIGH 0) hot_irq_state)
  = trip_armed TMON_TRIP_TYPE_LOW hot_irq_state.
Proof.
  pose proof (trip_enable_isolation TMON_TRIP_TYPE_RESET 2 hot_irq_state)
    as (A & B & _).
  pose proof (trip_enable_isolation TMON_TRIP_TYPE_HIGH 0 hot_irq_state)
    as (_ & _ & C & D & _).
  split; [apply A; discriminate|].
  split; [apply B; discriminate|].
  split; [apply C; [lia | discriminate]|].
  apply D. discriminate.
Defined.

(** ** Threshold registers: write then read, read then write *)

Lemma rmw_field_same (orig sh : Z) :
  0 <= orig < 2 ^ 32 -> 0 <= sh <= 22 ->
  rmw_field orig
    (Z.land (Z.shiftr (Z.land orig (field_mask sh)) sh) 0x3ff) sh = orig.
Proof.
  intros Ho Hs.
  set (c := Z.land (Z.shiftr (Z.land orig (field_mask sh)) sh) 0x3ff).
  assert (Hc : 0 <= c <= 1023) by apply land_code_range.
  apply Z.bits_inj'. intros i Hi.
  destruct (Z.lt_ge_cases i 32) as [Hlt|Hge].
  - destruct (Z.testbit (field_mask sh) i) eqn:E.
    + pose proof (rmw_field_get orig c sh Hs Hc) as G.
      apply (f_equal (fun z => Z.testbit z (i - sh))) in G.
      rewrite field_mask_bit in E by lia.
      apply andb_true_iff in E. destruct E as [E1 E2].
      apply Z.leb_le in E1. apply Z.ltb_lt in E2.
      rewrite Z.shiftr_spec, Z.land_spec in G by lia.
      replace (i - sh + sh) with i in G by lia.
      rewrite field_mask_bit, (proj2 (Z.leb_le sh i) E1),
        (proj2 (Z.ltb_lt i (sh + 10)) E2), andb_true_r in G by lia.
      rewrite G. unfold c. change 0x3ff with (Z.ones 10).
      rewrite Z.land_spec, Z.shiftr_spec, Z.land_spec,
        Z.testbit_ones_nonneg by lia.
      replace (i - sh + sh) with i by lia.
      rewrite field_mask_bit, (proj2 (Z.leb_le sh i) E1),
        (proj2 (Z.ltb_lt i (sh + 10)) E2) by lia.
      destruct (Z.ltb_spec (i - sh) 10); [|lia].
      now rewrite !andb_true_r.
    + now apply rmw_field_frame.
  - unfold rmw_field. rewrite u32_land_ones, Z.land_spec,
      Z.testbit_ones_nonneg by lia.
    destruct (Z.ltb_spec i 32); [lia|]. rewrite andb_false_r.
    symmetry. rewrite (small_land_ones orig 32) by lia.
    rewrite Z.land_spec, Z.testbit_ones_nonneg by lia.
    destruct (Z.ltb_spec i 32); [lia|]. apply andb_false_r.
Qed.

(** X6: for every trip, reading the threshold back after
    [avs_tmon_set_trip_temp] gives the temperature of the code of the
    requested temperature: inside the sensor's window that is less than one
    step (487) below the request for LOW and less than one step above it for
    HIGH and RESET.  The thresholds of the other trips read as before. *)
Theorem trip_temp_set_then_get
        (type : avs_tmon_trip_type) (temp : Z) (s : tmon) :
  let s' := after (avs_tmon_set_trip_temp type temp) s in
  let got := result (avs_tmon_get_trip_temp type) s' in
  got = avs_tmon_code_to_temp (avs_tmon_temp_to_code temp (is_low type)) /\
  (-88161 <= temp <= 410040 ->
   if is_low type then temp - 487 < got <= temp
   else temp <= got < temp + 487) /\
  (forall type', type' <> type ->
     result (avs_tmon_get_trip_temp type') s' =
     result (avs_tmon_get_trip_temp type') s).
Proof.
  intros s' got.
  assert (G : got =
              avs_tmon_code_to_temp (avs_tmon_temp_to_code temp (is_low type))).
  { subst got s'. unfold result. rewrite get_trip_temp_run. cbn [fst].
    now rewrite set_trip_temp_code. }
  split; [exact G|]. split.
  - intros Ht. rewrite G. now apply quantised_temp.
  - intros type' Hne. subst s'. unfold result.
    rewrite !get_trip_temp_run. cbn [fst].
    now rewrite set_trip_temp_code_other.
Qed.

Lemma trip_temp_set_then_get_witness :
  (20000 - 487 <
     result (avs_tmon_get_trip_temp TMON_TRIP_TYPE_LOW)
       (after (avs_tmon_set_trip_temp TMON_TRIP_TYPE_LOW 20000) hot_irq_state)
     <= 20000) /\
  (110000 <=
     result (avs_tmon_get_trip_temp TMON_TRIP_TYPE_RESET)
       (after (avs_tmon_set_trip_temp TMON_TRIP_TYPE_RESET 110000)
          hot_irq_state)
     < 110000 + 487) /\
  result (avs_tmon_get_trip_temp TMON_TRIP_TYPE_HIGH)
    (after (avs_tmon_set_trip_temp TMON_TRIP_TYPE_LOW 20000) hot_irq_state)
  = result (avs_tmon_get_trip_temp TMON_TRIP_TYPE_HIGH) hot_irq_state.
Proof.
  split; [|split].
  - apply (proj1 (proj2 (trip_temp_set_then_get
                           TMON_TRIP_TYPE_LOW 20000 hot_irq_state))).
    lia.
  - apply (proj1 (proj2 (trip_temp_set_then_get
                           TMON_TRIP_TYPE_RESET 110000 hot_irq_state))).
    lia.
  - apply (proj2 (proj2 (trip_temp_set_then_get
                           TMON_TRIP_TYPE_LOW 20000 hot_irq_state))).
    discriminate.
Defined.

(** X7: writing back the threshold temperature that was just read changes
    no register, for every trip, when the threshold register holds a 32-bit
    word: the conversion loses nothing on the codes the hardware stores. *)
Theorem trip_temp_get_then_set (type : avs_tmon_trip_type) (s : tmon) :
  0 <= regs s (reg_offs (avs_tmon_trips type)) < 2 ^ 32 ->
  forall offs : Z,
    regs (after (temp <- avs_tmon_get_trip_temp type ;;
                 avs_tmon_set_trip_temp type temp) s) offs
    = regs s offs.
Proof.
  intros Hu offs. rewrite after_bind. unfold result, after at 2.
  rewrite get_trip_temp_run. cbn [fst snd].
  unfold after. rewrite set_trip_temp_run. cbn [snd regs log].
  rewrite code_round_trip_both_modes. unfold trip_code.
  destruct (trip_mask_shape type) as [-> Hs].
  rewrite rmw_field_same by lia.
  unfold upd. destruct (Z.eqb_spec offs (reg_offs (avs_tmon_trips type)));
    [now subst | reflexivity].
Qed.

Lemma trip_temp_get_then_set_witness :
  regs (after (temp <- avs_tmon_get_trip_temp TMON_TRIP_TYPE_HIGH ;;
               avs_tmon_set_trip_temp TMON_TRIP_TYPE_HIGH temp)
          hot_irq_state) AVS_TMON_INT_THRESH
  = regs hot_irq_state AVS_TMON_INT_THRESH.
Proof.
  apply (trip_temp_get_then_set TMON_TRIP_TYPE_HIGH hot_irq_state).
  vm_compute. split; [discriminate | reflexivity].
Defined.

(** ** The interrupt handler, all four outcomes *)

Lemma reads_app (t1 t2 : list event) :
  reads (t1 ++ t2) = reads t1 ++ reads t2.
Proof.
  induction t1 as [|e t1 IH]; [reflexivity|].
  destruct e; cbn; now rewrite IH.
Qed.

(** The state the handler leaves, up to its trace. *)
Lemma irq_thread_after (s : tmon) :
  let low := avs_tmon_code_to_temp (trip_code TMON_TRIP_TYPE_LOW s) in
  let high := avs_tmon_code_to_temp (trip_code TMON_TRIP_TYPE_HIGH s) in
  let intr := avs_tmon_code_to_temp (regs s AVS_TMON_TEMP_INT_CODE) in
  let s4 := if intr >=? high
            then after (avs_tmon_trip_enable TMON_TRIP_TYPE_HIGH 0) s
            else s in
  let s5 := if intr <=? low
            then after (avs_tmon_trip_enable TMON_TRIP_TYPE_LOW 0) s4
            else s4 in
  regs (after brcmstb_tmon_irq_thread s) = regs s5.
Proof.
  cbv zeta. unfold after at 1. rewrite irq_thread_run. cbn [snd log regs].
  destruct (_ >=? _), (_ <=? _); unfold after;
    rewrite ?trip_enable_run; cbn [snd regs]; rewrite ?trip_enable_run;
    reflexivity.
Qed.

Lemma trip_armed_regs (type : avs_tmon_trip_type) (s1 s2 : tmon) :
  regs s1 = regs s2 -> trip_armed type s1 = trip_armed type s2.
Proof. intros E. unfold trip_armed. now rewrite E. Qed.

Lemma trip_code_regs (type : avs_tmon_trip_type) (s1 s2 : tmon) :
  regs s1 = regs s2 -> trip_code type s1 = trip_code type s2.
Proof. intros E. unfold trip_code. now rewrite E. Qed.

(** X8: whatever the registers hold, the handler leaves a trip armed only
    if it was armed and its bound was not crossed: HIGH stays armed iff it
    was armed and the interrupt temperature is below the HIGH threshold, LOW
    stays armed iff it was armed and the interrupt temperature is above the
    LOW threshold, and RESET is as it was.  The handler never arms a trip. *)
Theorem irq_thread_armed_after (s : tmon) :
  let intr := result avs_tmon_get_intr_temp s in
  let high := result (avs_tmon_get_trip_temp TMON_TRIP_TYPE_HIGH) s in
  let low := result (avs_tmon_get_trip_temp TMON_TRIP_TYPE_LOW) s in
  let s' := after brcmstb_tmon_irq_thread s in
  trip_armed TMON_TRIP_TYPE_HIGH s' =
    trip_armed TMON_TRIP_TYPE_HIGH s && (intr <? high) /\
  trip_armed TMON_TRIP_TYPE_LOW s' =
    trip_armed TMON_TRIP_TYPE_LOW s && (low <? intr) /\
  trip_armed TMON_TRIP_TYPE_RESET s' = trip_armed TMON_TRIP_TYPE_RESET s /\
  (forall type, trip_armed type s' = true -> trip_armed type s = true).
Proof.
  intros intr high low s'. subst intr high low s'. unfold result.
  rewrite get_intr_temp_run, !get_trip_temp_run. cbn [fst].
  pose proof (irq_thread_after s) as R. cbv zeta in R.
  set (intr := avs_tmon_code_to_temp (regs s AVS_TMON_TEMP_INT_CODE)) in *.
  set (high := avs_tmon_code_to_temp (trip_code TMON_TRIP_TYPE_HIGH s)) in *.
  set (low := avs_tmon_code_to_temp (trip_code TMON_TRIP_TYPE_LOW s)) in *.
  assert (A : forall type,
             trip_armed type (after brcmstb_tmon_irq_thread s) =
             trip_armed type s &&
             match type with
             | TMON_TRIP_TYPE_HIGH => intr <? high
             | TMON_TRIP_TYPE_LOW => low <? intr
             | TMON_TRIP_TYPE_RESET => true
             end).
  { intros type. rewrite (trip_armed_regs type _ _ R).
    destruct (Z.geb_spec intr high), (Z.leb_spec intr low),
      (Z.ltb_spec intr high), (Z.ltb_spec low intr); try lia;
      destruct type; trip_simpl; cbn [Z.eqb negb];
      now rewrite ?andb_true_r, ?andb_false_r. }
  split; [apply (A TMON_TRIP_TYPE_HIGH)|].
  split; [apply (A TMON_TRIP_TYPE_LOW)|].
  split; [rewrite (A TMON_TRIP_TYPE_RESET); apply andb_true_r|].
  intros type H. rewrite A in H. now apply andb_true_iff in H.
Qed.

Lemma irq_thread_armed_after_witness :
  trip_armed TMON_TRIP_TYPE_LOW hot_irq_state = true.
Proof.
  apply (proj2 (proj2 (proj2 (irq_thread_armed_after hot_irq_state)))).
  reflexivity.
Defined.

Lemma trip_enable_other_bits (type : avs_tmon_trip_type) (en : Z) (s : tmon)
      (i : Z) :
  0 <= i < 32 -> i <> enable_bit type ->
  Z.testbit (regs (after (avs_tmon_trip_enable type en) s)
               (enable_offs (avs_tmon_trips type))) i =
  Z.testbit (regs s (enable_offs (avs_tmon_trips type))) i.
Proof.
  intros Hi Hne. unfold after. rewrite trip_enable_run.
  cbn [snd regs]. rewrite upd_same.
  destruct (trip_enable_shape type) as [-> Hb].
  rewrite rmw_enable_bit by lia.
  destruct (Z.eqb_spec (enable_bit type) i); [congruence | reflexivity].
Qed.

(** X9: the handler never changes a threshold code, never changes a
    register other than [EN_TEMP_INT_SRCS], and never changes bits 2 to 31
    of that register.  It writes the enable register once per crossed bound
    (HIGH first) and, when the interrupt temperature lies strictly between
    the two thresholds, it writes nothing at all.  The events of a run are
    given one by one: three reads, then for a crossed HIGH bound a
    read-modify-write whose word has bit 1 clear and bit 0 as read, then for
    a crossed LOW bound a read-modify-write, on the word the enable register
    holds by then, whose word has bit 0 clear and bit 1 as read, then the
    notification. *)
Theorem irq_thread_frame (s : tmon) :
  let intr := result avs_tmon_get_intr_temp s in
  let high := result (avs_tmon_get_trip_temp TMON_TRIP_TYPE_HIGH) s in
  let low := result (avs_tmon_get_trip_temp TMON_TRIP_TYPE_LOW) s in
  let s' := after brcmstb_tmon_irq_thread s in
  let en := AVS_TMON_EN_TEMP_INT_SRCS in
  (forall type, trip_code type s' = trip_code type s) /\
  (forall offs, offs <> en -> regs s' offs = regs s offs) /\
  (forall i, 2 <= i < 32 ->
             Z.testbit (regs s' en) i = Z.testbit (regs s en) i) /\
  (exists evs : list event,
      trace s' = trace s ++ evs /\
      map fst (writes evs) =
        (if intr >=? high then [en] else []) ++
        (if intr <=? low then [en] else []) /\
      let v1 := rmw_enable (regs s en) AVS_TMON_EN_TEMP_INT_SRCS_high 0 in
      let w1 := if intr >=? high then v1 else regs s en in
      let v2 := rmw_enable w1 AVS_TMON_EN_TEMP_INT_SRCS_low 0 in
      evs = [EvRead AVS_TMON_INT_THRESH; EvRead AVS_TMON_INT_THRESH;
             EvRead AVS_TMON_TEMP_INT_CODE] ++
            rmw_events ((if intr >=? high then [(en, v1)] else []) ++
                        (if intr <=? low then [(en, v2)] else [])) ++
            [EvNotify intr] /\
      (Z.testbit v1 1 = false /\
       Z.testbit v1 0 = Z.testbit (regs s en) 0) /\
      (Z.testbit v2 0 = false /\
       Z.testbit v2 1 = Z.testbit w1 1)) /\
  (low < intr < high ->
   regs s' = regs s /\ writes (trace s') = writes (trace s)).
Proof.
  intros intr high low s' en. subst intr high low s'. unfold result.
  rewrite get_intr_temp_run, !get_trip_temp_run. cbn [fst].
  pose proof (irq_thread_after s) as R. cbv zeta in R.
  set (intr := avs_tmon_code_to_temp (regs s AVS_TMON_TEMP_INT_CODE)) in *.
  set (high := avs_tmon_code_to_temp (trip_code TMON_TRIP_TYPE_HIGH s)) in *.
  set (low := avs_tmon_code_to_temp (trip_code TMON_TRIP_TYPE_LOW s)) in *.
  split; [|split; [|split; [|split]]].
  - intros type. rewrite (trip_code_regs type _ _ R).
    destruct (intr >=? high), (intr <=? low); now trip_simpl.
  - intros offs Ho. rewrite R.
    destruct (intr >=? high), (intr <=? low);
      rewrite ?trip_enable_regs by exact Ho; reflexivity.
  - intros i Hi. rewrite R.
    assert (B : forall type st, type <> TMON_TRIP_TYPE_RESET ->
                  Z.testbit (regs (after (avs_tmon_trip_enable type 0) st) en) i
                  = Z.testbit (regs st en) i).
    { intros type st Ht.
      destruct type; try congruence.
      - apply (trip_enable_other_bits TMON_TRIP_TYPE_LOW 0 st i);
          cbn [enable_bit]; lia.
      - apply (trip_enable_other_bits TMON_TRIP_TYPE_HIGH 0 st i);
          cbn [enable_bit]; lia. }
    destruct (intr >=? high), (intr <=? low);
      rewrite ?B by discriminate; reflexivity.
  - unfold after. rewrite irq_thread_run. cbn [snd]. fold intr high low.
    assert (V : forall v k,
               0 <= k < 32 ->
               Z.testbit (rmw_enable v (Z.shiftl 1 k) 0) k = false /\
               forall i, 0 <= i < 32 -> i <> k ->
                         Z.testbit (rmw_enable v (Z.shiftl 1 k) 0) i =
                         Z.testbit v i).
    { intros v k Hk. split.
      - rewrite rmw_enable_bit by lia. now rewrite Z.eqb_refl.
      - intros i Hi Hne. rewrite rmw_enable_bit by lia.
        destruct (Z.eqb_spec k i); [congruence | reflexivity]. }
    change AVS_TMON_EN_TEMP_INT_SRCS_high with (Z.shiftl 1 1).
    change AVS_TMON_EN_TEMP_INT_SRCS_low with (Z.shiftl 1 0).
    destruct (intr >=? high), (intr <=? low); cbn [log trace];
      rewrite ?trip_enable_trace; cbn [trace];
      rewrite <- ?app_assoc; cbn [app];
      (eexists; split; [reflexivity|]);
      (split; [reflexivity|]); cbv zeta;
      (split; [reflexivity|]);
      (split; (split; [apply V; lia | apply V; lia])).
  - intros [Hl Hh].
    destruct (Z.geb_spec intr high); [lia|].
    destruct (Z.leb_spec intr low); [lia|].
    split; [exact R|].
    unfold after. rewrite irq_thread_run. cbn [snd]. fold intr high low.
    destruct (Z.geb_spec intr high); [lia|].
    destruct (Z.leb_spec intr low); [lia|].
    cbn [log trace]. rewrite !writes_app. cbn [writes].
    now rewrite !app_nil_r.
Qed.

Lemma irq_thread_frame_witness :
  regs (after brcmstb_tmon_irq_thread calm_irq_state) = regs calm_irq_state /\
  writes (trace (after brcmstb_tmon_irq_thread calm_irq_state)) =
  writes (trace calm_irq_state).
Proof.
  apply (proj2 (proj2 (proj2 (proj2 (irq_thread_frame calm_irq_state))))).
  split; reflexivity.
Defined.

(** ** Setting the trip window: the words written *)

Lemma rmw_enable_bit_full (orig k en i : Z) :
  0 <= k < 32 -> 0 <= i ->
  Z.testbit (rmw_enable orig (Z.shiftl 1 k) en) i =
    (i <? 32) && (if k =? i then negb (en =? 0) else Z.testbit orig i).
Proof.
  intros Hk Hi. destruct (Z.ltb_spec i 32).
  - now rewrite rmw_enable_bit by lia.
  - unfold rmw_enable. rewrite u32_land_ones, Z.land_spec,
      Z.testbit_ones_nonneg by lia.
    destruct (Z.ltb_spec i 32); [lia|]. apply andb_false_r.
Qed.

Lemma rmw_field_bit_full (orig c sh i : Z) :
  0 <= sh <= 22 -> 0 <= c <= 1023 -> 0 <= i ->
  Z.testbit (rmw_field orig c sh) i =
    (i <? 32) && (if (sh <=? i) && (i <? sh + 10) then Z.testbit c (i - sh)
                  else Z.testbit orig i).
Proof.
  intros Hs Hc Hi. destruct (Z.ltb_spec i 32) as [Hlt|Hge]; cbn [andb].
  - destruct ((sh <=? i) && (i <? sh + 10)) eqn:E.
    + pose proof (rmw_field_get orig c sh Hs Hc) as G.
      apply (f_equal (fun z => Z.testbit z (i - sh))) in G.
      pose proof E as E'. apply andb_true_iff in E'. destruct E' as [E1 E2].
      apply Z.leb_le in E1.
      rewrite Z.shiftr_spec, Z.land_spec in G by lia.
      replace (i - sh + sh) with i in G by lia.
      now rewrite field_mask_bit, E, andb_true_r in G by lia.
    + apply rmw_field_frame; [lia | lia |].
      now rewrite field_mask_bit by lia.
  - unfold rmw_field. rewrite u32_land_ones, Z.land_spec,
      Z.testbit_ones_nonneg by lia.
    destruct (Z.ltb_spec i 32); [lia|]. apply andb_false_r.
Qed.

(** The registers [brcmstb_set_trips] leaves. *)
Lemma set_trips_regs (low high : Z) (s : tmon) (o : Z) :
  regs (after (brcmstb_set_trips low high) s) o =
    if o =? AVS_TMON_EN_TEMP_INT_SRCS then
      set_trips_en low high (regs s AVS_TMON_EN_TEMP_INT_SRCS)
    else if o =? AVS_TMON_INT_THRESH then
      set_trips_thresh low high (regs s AVS_TMON_INT_THRESH)
    else regs s o.
Proof.
  rewrite set_trips_after. cbv zeta. unfold set_trips_en, set_trips_thresh.
  destruct (low <=? - INT_MAX), (high =? INT_MAX);
    unfold after; rewrite ?trip_enable_run, ?set_trip_temp_run;
    cbn [snd regs];
    rewrite ?trip_enable_run, ?set_trip_temp_run; cbn [snd regs];
    rewrite ?trip_enable_run, ?set_trip_temp_run; cbn [snd regs];
    rewrite ?trip_enable_run, ?set_trip_temp_run; cbn [snd regs];
    cbv [upd enable_offs reg_offs enable_mask reg_shift avs_tmon_trips
         is_low AVS_TMON_EN_TEMP_INT_SRCS AVS_TMON_INT_THRESH
         AVS_TMON_INT_THRESH_low_shift AVS_TMON_INT_THRESH_high_shift];
    cbn [Z.eqb Pos.eqb];
    destruct (Z.eqb_spec o 20), (Z.eqb_spec o 24); subst;
    solve [reflexivity | discriminate].
Qed.

(** X10: [brcmstb_set_trips] changes no register but [EN_TEMP_INT_SRCS] and
    [INT_THRESH]; in the former it changes no bit but bits 0 and 1, in the
    latter no bit outside the LOW and HIGH threshold fields.  The RESET trip
    keeps its threshold code and its enablement.  The call notifies nobody
    and does not read the status register. *)
Theorem set_trips_frame (low high : Z) (s : tmon) :
  let s' := after (brcmstb_set_trips low high) s in
  let en := AVS_TMON_EN_TEMP_INT_SRCS in
  let thresh := AVS_TMON_INT_THRESH in
  (forall offs, offs <> en -> offs <> thresh -> regs s' offs = regs s offs) /\
  (forall i, 2 <= i < 32 ->
             Z.testbit (regs s' en) i = Z.testbit (regs s en) i) /\
  (forall i, 0 <= i < 32 ->
             Z.testbit AVS_TMON_INT_THRESH_low_msk i = false ->
             Z.testbit AVS_TMON_INT_THRESH_high_msk i = false ->
             Z.testbit (regs s' thresh) i = Z.testbit (regs s thresh) i) /\
  trip_code TMON_TRIP_TYPE_RESET s' = trip_code TMON_TRIP_TYPE_RESET s /\
  trip_armed TMON_TRIP_TYPE_RESET s' = trip_armed TMON_TRIP_TYPE_RESET s /\
  (exists evs : list event,
      trace s' = trace s ++ evs /\
      notifications evs = [] /\
      ~ In AVS_TMON_STATUS (reads evs)).
Proof.
  intros s' en thresh. subst s' en thresh.
  split; [|split; [|split; [|split; [|split]]]].
  - intros offs H1 H2. rewrite set_trips_regs.
    destruct (Z.eqb_spec offs AVS_TMON_EN_TEMP_INT_SRCS); [contradiction|].
    destruct (Z.eqb_spec offs AVS_TMON_INT_THRESH); [contradiction|].
    reflexivity.
  - intros i Hi. rewrite set_trips_regs, Z.eqb_refl.
    unfold set_trips_en.
    change AVS_TMON_EN_TEMP_INT_SRCS_high with (Z.shiftl 1 1).
    change AVS_TMON_EN_TEMP_INT_SRCS_low with (Z.shiftl 1 0).
    rewrite !rmw_enable_bit by lia.
    destruct (Z.eqb_spec 1 i); [lia|].
    destruct (Z.eqb_spec 0 i); [lia|]. reflexivity.
  - intros i Hi Hl Hh. rewrite set_trips_regs.
    change (AVS_TMON_INT_THRESH =? AVS_TMON_EN_TEMP_INT_SRCS) with false.
    rewrite Z.eqb_refl. cbv iota.
    unfold set_trips_thresh.
    change AVS_TMON_INT_THRESH_low_msk with (field_mask 1) in Hl.
    change AVS_TMON_INT_THRESH_high_msk with (field_mask 17) in Hh.
    unfold AVS_TMON_INT_THRESH_low_shift, AVS_TMON_INT_THRESH_high_shift.
    destruct (low <=? - INT_MAX), (high =? INT_MAX);
      rewrite ?rmw_field_frame by (assumption || lia); reflexivity.
  - rewrite set_trips_after. cbv zeta.
    destruct (low <=? - INT_MAX), (high =? INT_MAX); now trip_simpl.
  - rewrite set_trips_after. cbv zeta.
    destruct (low <=? - INT_MAX), (high =? INT_MAX); now trip_simpl.
  - rewrite set_trips_after. cbv zeta.
    destruct (low <=? - INT_MAX), (high =? INT_MAX);
      rewrite ?trip_enable_trace, ?set_trip_temp_trace;
      rewrite ?trip_enable_trace, ?set_trip_temp_trace;
      rewrite ?trip_enable_trace, ?set_trip_temp_trace;
      rewrite ?trip_enable_trace, ?set_trip_temp_trace;
      rewrite <- ?app_assoc;
      (eexists; split; [reflexivity|]);
      (split; [reflexivity | cbn; intuition discriminate]).
Qed.

Lemma set_trips_frame_witness :
  regs (after (brcmstb_set_trips 20000 50000) hot_irq_state)
       AVS_TMON_TEMP_INT_CODE
  = regs hot_irq_state AVS_TMON_TEMP_INT_CODE /\
  Z.testbit (regs (after (brcmstb_set_trips 20000 50000) hot_irq_state)
               AVS_TMON_EN_TEMP_INT_SRCS) 5
  = Z.testbit (regs hot_irq_state AVS_TMON_EN_TEMP_INT_SRCS) 5 /\
  Z.testbit (regs (after (brcmstb_set_trips 20000 50000) hot_irq_state)
               AVS_TMON_INT_THRESH) 12
  = Z.testbit (regs hot_irq_state AVS_TMON_INT_THRESH) 12.
Proof.
  pose proof (set_trips_frame 20000 50000 hot_irq_state) as (A & B & C & _).
  split; [apply A; discriminate|].
  split; [apply B; lia|].
  apply C; [lia | reflexivity | reflexivity].
Defined.

(** X11: when both bounds lie inside the sensor's window,
    [brcmstb_set_trips] arms both trips, and the thresholds read back lie
    less than one step (487) outside the requested bounds: LOW at or below
    [low], HIGH at or above [high].  So the programmed window contains the
    requested one. *)
Theorem set_trips_window (low high : Z) (s : tmon) :
  -88161 <= low <= 410040 -> -88161 <= high <= 410040 ->
  let s' := after (brcmstb_set_trips low high) s in
  let got_low := result (avs_tmon_get_trip_temp TMON_TRIP_TYPE_LOW) s' in
  let got_high := result (avs_tmon_get_trip_temp TMON_TRIP_TYPE_HIGH) s' in
  trip_armed TMON_TRIP_TYPE_LOW s' = true /\
  trip_armed TMON_TRIP_TYPE_HIGH s' = true /\
  low - 487 < got_low <= low /\
  high <= got_high < high + 487 /\
  (low <= high -> got_low <= got_high).
Proof.
  intros Hl Hh s' got_low got_high. subst got_low got_high s'.
  unfold result. rewrite !get_trip_temp_run. cbn [fst].
  rewrite set_trips_after. cbv zeta.
  destruct (Z.leb_spec low (- INT_MAX)) as [C|C];
    [unfold INT_MAX in C; lia|].
  destruct (Z.eqb_spec high INT_MAX) as [D|D];
    [unfold INT_MAX in D; lia|].
  trip_simpl.
  pose proof (quantised_temp low true Hl) as Ql.
  pose proof (quantised_temp high false Hh) as Qh.
  cbv beta iota zeta in Ql, Qh. cbn [is_low].
  repeat split; try reflexivity; lia.
Qed.

Lemma set_trips_window_witness :
  let s' := after (brcmstb_set_trips 20000 50000) hot_irq_state in
  trip_armed TMON_TRIP_TYPE_LOW s' = true /\
  trip_armed TMON_TRIP_TYPE_HIGH s' = true /\
  20000 - 487 < result (avs_tmon_get_trip_temp TMON_TRIP_TYPE_LOW) s'
    <= 20000 /\
  50000 <= result (avs_tmon_get_trip_temp TMON_TRIP_TYPE_HIGH) s'
    < 50000 + 487 /\
  (20000 <= 50000 ->
   result (avs_tmon_get_trip_temp TMON_TRIP_TYPE_LOW) s' <=
   result (avs_tmon_get_trip_temp TMON_TRIP_TYPE_HIGH) s').
Proof.
  apply (set_trips_window 20000 50000 hot_irq_state); lia.
Defined.

Lemma set_trips_en_idem (low high w : Z) :
  set_trips_en low high (set_trips_en low high w) = set_trips_en low high w.
Proof.
  unfold set_trips_en.
  change AVS_TMON_EN_TEMP_INT_SRCS_high with (Z.shiftl 1 1).
  change AVS_TMON_EN_TEMP_INT_SRCS_low with (Z.shiftl 1 0).
  apply Z.bits_inj'. intros i Hi.
  rewrite !rmw_enable_bit_full by lia.
  destruct (i <? 32), (1 =? i), (0 =? i); reflexivity.
Qed.

Lemma set_trips_thresh_idem (low high w : Z) :
  set_trips_thresh low high (set_trips_thresh low high w) =
  set_trips_thresh low high w.
Proof.
  unfold set_trips_thresh, AVS_TMON_INT_THRESH_low_shift,
    AVS_TMON_INT_THRESH_high_shift.
  pose proof (temp_to_code_range low true) as Rl.
  pose proof (temp_to_code_range high false) as Rh.
  destruct (low <=? - INT_MAX), (high =? INT_MAX); try reflexivity;
    apply Z.bits_inj'; intros i Hi;
    rewrite !rmw_field_bit_full by lia;
    destruct (i <? 32), (1 <=? i), (i <? 1 + 10), (17 <=? i), (i <? 17 + 10);
    reflexivity.
Qed.

(** X12: [brcmstb_set_trips] is idempotent on the registers: a second call
    with the same bounds leaves every register as the first call left it. *)
Theorem set_trips_idempotent (low high : Z) (s : tmon) (offs : Z) :
  regs (after (brcmstb_set_trips low high)
          (after (brcmstb_set_trips low high) s)) offs
  = regs (after (brcmstb_set_trips low high) s) offs.
Proof.
  rewrite (set_trips_regs low high (after _ s) offs).
  rewrite (set_trips_regs low high s offs).
  rewrite (set_trips_regs low high s AVS_TMON_EN_TEMP_INT_SRCS).
  rewrite (set_trips_regs low high s AVS_TMON_INT_THRESH).
  rewrite !Z.eqb_refl.
  change (AVS_TMON_INT_THRESH =? AVS_TMON_EN_TEMP_INT_SRCS) with false.
  cbv iota.
  rewrite set_trips_en_idem, set_trips_thresh_idem.
  destruct (offs =? AVS_TMON_EN_TEMP_INT_SRCS), (offs =? AVS_TMON_INT_THRESH);
    reflexivity.
Qed.

(** ** Arm, interrupt, re-arm *)

Lemma irq_thread_notifications (s : tmon) :
  notifications (trace (after brcmstb_tmon_irq_thread s)) =
  notifications (trace s) ++
  [avs_tmon_code_to_temp (regs s AVS_TMON_TEMP_INT_CODE)].
Proof.
  unfold after. rewrite irq_thread_run. cbn [snd].
  destruct (_ >=? _), (_ <=? _); cbn [log trace];
    rewrite ?trip_enable_trace; cbn [trace];
    rewrite ?trip_enable_trace; cbn [trace];
    rewrite !notifications_app; cbn [notifications];
    now rewrite ?app_nil_r.
Qed.

Lemma set_trips_notifications (low high : Z) (s : tmon) :
  notifications (trace (after (brcmstb_set_trips low high) s)) =
  notifications (trace s).
Proof.
  rewrite set_trips_after. cbv zeta.
  destruct (low <=? - INT_MAX), (high =? INT_MAX);
    rewrite ?trip_enable_trace, ?set_trip_temp_trace;
    rewrite ?trip_enable_trace, ?set_trip_temp_trace;
    rewrite ?trip_enable_trace, ?set_trip_temp_trace;
    rewrite ?trip_enable_trace, ?set_trip_temp_trace;
    rewrite !notifications_app; cbn [notifications];
    now rewrite ?app_nil_r.
Qed.

(** X14: the re-arm cycle.  After [brcmstb_set_trips low high] with both
    bounds present, an interrupt whose captured temperature is at or above
    the programmed HIGH threshold and above the programmed LOW threshold
    disarms HIGH, keeps LOW armed, keeps both threshold codes and adds one
    notification, carrying that temperature, to those sent so far.  A later
    [brcmstb_set_trips] with a HIGH bound arms HIGH again, at the new
    code. *)
Theorem rearm_cycle (low high low2 high2 : Z) (s : tmon) :
  low > - INT_MAX -> high <> INT_MAX -> high2 <> INT_MAX ->
  let intr := avs_tmon_code_to_temp (regs s AVS_TMON_TEMP_INT_CODE) in
  intr >= avs_tmon_code_to_temp (avs_tmon_temp_to_code high false) ->
  intr > avs_tmon_code_to_temp (avs_tmon_temp_to_code low true) ->
  let s1 := after (brcmstb_set_trips low high) s in
  let s2 := after brcmstb_tmon_irq_thread s1 in
  let s3 := after (brcmstb_set_trips low2 high2) s2 in
  (trip_armed TMON_TRIP_TYPE_LOW s1 = true /\
   trip_armed TMON_TRIP_TYPE_HIGH s1 = true) /\
  (trip_armed TMON_TRIP_TYPE_LOW s2 = true /\
   trip_armed TMON_TRIP_TYPE_HIGH s2 = false /\
   trip_code TMON_TRIP_TYPE_LOW s2 = avs_tmon_temp_to_code low true /\
   trip_code TMON_TRIP_TYPE_HIGH s2 = avs_tmon_temp_to_code high false /\
   notifications (trace s2) = notifications (trace s) ++ [intr]) /\
  (trip_armed TMON_TRIP_TYPE_HIGH s3 = true /\
   trip_code TMON_TRIP_TYPE_HIGH s3 = avs_tmon_temp_to_code high2 false).
Proof.
  intros Hl Hh Hh2 intr Hi1 Hi2 s1 s2 s3.
  assert (A1 : trip_armed TMON_TRIP_TYPE_LOW s1 = true /\
               trip_armed TMON_TRIP_TYPE_HIGH s1 = true /\
               trip_code TMON_TRIP_TYPE_LOW s1 = avs_tmon_temp_to_code low true
               /\
               trip_code TMON_TRIP_TYPE_HIGH s1 =
               avs_tmon_temp_to_code high false).
  { subst s1. rewrite set_trips_after. cbv zeta.
    destruct (Z.leb_spec low (- INT_MAX)); [lia|].
    destruct (Z.eqb_spec high INT_MAX); [contradiction|].
    trip_simpl. repeat split. }
  destruct A1 as (AL & AH & CL & CH).
  assert (I1 : regs s1 AVS_TMON_TEMP_INT_CODE = regs s AVS_TMON_TEMP_INT_CODE).
  { subst s1. now rewrite set_trips_regs. }
  pose proof (irq_thread_after s1) as R. cbv zeta in R.
  rewrite CL, CH, I1 in R. fold intr in R.
  destruct (Z.geb_spec intr (avs_tmon_code_to_temp
                               (avs_tmon_temp_to_code high false))); [|lia].
  destruct (Z.leb_spec intr (avs_tmon_code_to_temp
                               (avs_tmon_temp_to_code low true))); [lia|].
  fold s2 in R.
  split; [split; assumption|]. split.
  - rewrite (trip_armed_regs _ _ _ R), (trip_armed_regs _ _ _ R),
      (trip_code_regs _ _ _ R), (trip_code_regs _ _ _ R).
    trip_simpl. rewrite AL, CL, CH.
    split; [reflexivity|]. split; [reflexivity|].
    split; [reflexivity|]. split; [reflexivity|].
    subst s2. rewrite irq_thread_notifications, I1.
    subst s1. now rewrite set_trips_notifications.
  - subst s3. rewrite set_trips_after. cbv zeta.
    destruct (Z.eqb_spec high2 INT_MAX); [contradiction|].
    destruct (low2 <=? - INT_MAX); trip_simpl; split; reflexivity.
Qed.

Lemma rearm_cycle_witness :
  let s1 := after (brcmstb_set_trips 20000 50000) hot_irq_state in
  let s2 := after brcmstb_tmon_irq_thread s1 in
  trip_armed TMON_TRIP_TYPE_LOW s2 = true /\
  trip_armed TMON_TRIP_TYPE_HIGH s2 = false /\
  trip_armed TMON_TRIP_TYPE_HIGH
    (after (brcmstb_set_trips 20000 60000) s2) = true.
Proof.
  assert (H1 : 20000 > - INT_MAX) by reflexivity.
  assert (H2 : 50000 <> INT_MAX) by discriminate.
  assert (H3 : 60000 <> INT_MAX) by discriminate.
  assert (H4 : avs_tmon_code_to_temp
                 (regs hot_irq_state AVS_TMON_TEMP_INT_CODE) >=
               avs_tmon_code_to_temp (avs_tmon_temp_to_code 50000 false))
    by (vm_compute; discriminate).
  assert (H5 : avs_tmon_code_to_temp
                 (regs hot_irq_state AVS_TMON_TEMP_INT_CODE) >
               avs_tmon_code_to_temp (avs_tmon_temp_to_code 20000 true))
    by reflexivity.
  pose proof (rearm_cycle 20000 50000 20000 60000 hot_irq_state
                H1 H2 H3 H4 H5) as (_ & (A & B & _) & (C & _)).
  cbv zeta. split; [exact A|]. split; [exact B | exact C].
Defined.

(** ** Device attach: which failures stop the probe *)

Lemma PTR_ERR_small (e : positive) :
  (Z.pos e <= 4095)%Z -> PTR_ERR e = Z.neg e.
Proof. intros H. unfold PTR_ERR. apply s32_small. lia. Qed.

Ltac probe_step :=
  cbv [brcmstb_thermal_probe probe_body andthen extern when return_ pure
       IS_ERR negb fst snd app devm_kzalloc devm_ioremap_resource
       of_device_get_match_data devm_clk_get clk_prepare_enable
       devm_thermal_zone_of_sensor_register platform_get_irq
       devm_request_threaded_irq].

Ltac probe_fin :=
  cbn [fst snd app];
  cbv [ENOMEM ENODEV EPROBE_DEFER] in *;
  intuition (try discriminate; try congruence; try lia).

(** X15: on a platform whose error pointers are well formed,
    [brcmstb_thermal_probe] returns 0 exactly when the allocation, the
    register mapping and the match-data lookup succeed, the clock is not
    deferred ([-EPROBE_DEFER]), enabling the clock (when there is one)
    returns 0, the sensor registers, the interrupt number is not negative
    and requesting the interrupt does not return a negative value.  It then
    made its calls in source order, registering the sensor before it
    requested the interrupt [platform_get_irq] gave, and enabling the clock
    only if it got one. *)
Theorem probe_succeeds_iff (pdev : platform_device) :
  platform_ok pdev ->
  (fst (brcmstb_thermal_probe pdev) = 0 <->
   devm_kzalloc pdev = true /\
   devm_ioremap_resource pdev = Valid /\
   of_device_get_match_data pdev <> None /\
   devm_clk_get pdev <> ErrPtr 517 /\
   (devm_clk_get pdev = Valid -> clk_prepare_enable pdev = 0) /\
   devm_thermal_zone_of_sensor_register pdev = Valid /\
   0 <= platform_get_irq pdev /\
   0 <= devm_request_threaded_irq pdev) /\
  (fst (brcmstb_thermal_probe pdev) = 0 ->
   snd (brcmstb_thermal_probe pdev) =
     [Call_devm_kzalloc; Call_platform_get_resource;
      Call_devm_ioremap_resource; Call_of_device_get_match_data;
      Call_devm_clk_get] ++
     (if IS_ERR (devm_clk_get pdev) then [] else [Call_clk_prepare_enable]) ++
     [Call_platform_set_drvdata; Call_devm_thermal_zone_of_sensor_register;
      Call_platform_get_irq;
      Call_devm_request_threaded_irq (platform_get_irq pdev)]).
Proof.
  destruct pdev as [kz io md clk cpe sens irq req].
  intros (Hio & Hclk & Hsens). cbn in Hio, Hclk, Hsens.
  probe_step.
  destruct kz; [|probe_fin].
  destruct io as [e|]; [rewrite (PTR_ERR_small e) by assumption; probe_fin|].
  destruct md as [socdata|]; [|probe_fin].
  destruct clk as [e|].
  - rewrite (PTR_ERR_small e) by assumption.
    destruct (Pos.eq_dec e 517) as [->|Ne].
    + change (Z.neg 517 =? - EPROBE_DEFER) with true. probe_fin.
    + replace (Z.neg e =? - EPROBE_DEFER) with false
        by (symmetry; apply Z.eqb_neq; unfold EPROBE_DEFER; lia).
      destruct sens as [e'|];
        [rewrite (PTR_ERR_small e') by assumption; probe_fin|].
      destruct (Z.ltb_spec irq 0); [probe_fin|].
      destruct (Z.ltb_spec req 0); probe_fin.
  - destruct (Z.eqb_spec cpe 0); [|probe_fin].
    destruct sens as [e'|];
      [rewrite (PTR_ERR_small e') by assumption; probe_fin|].
    destruct (Z.ltb_spec irq 0); [probe_fin|].
    destruct (Z.ltb_spec req 0); probe_fin.
Qed.

Lemma probe_succeeds_iff_witness :
  fst (brcmstb_thermal_probe good_pdev) = 0 /\
  fst (brcmstb_thermal_probe no_clock_pdev) = 0.
Proof.
  assert (G : platform_ok good_pdev) by (repeat split).
  assert (N : platform_ok no_clock_pdev) by (repeat split; cbn; lia).
  split.
  - apply (proj1 (probe_succeeds_iff good_pdev G)).
    repeat split; try reflexivity; try discriminate.
  - apply (proj1 (probe_succeeds_iff no_clock_pdev N)).
    repeat split; try reflexivity; try discriminate.
Defined.

Ltac probe_list :=
  cbn [fst snd app In];
  cbv [ENOMEM ENODEV EPROBE_DEFER] in *;
  intuition (try discriminate; try congruence; try lia).

(** X16: the clock is optional.  When [devm_clk_get] fails, the probe never
    calls [clk_prepare_enable].  If the error is not [-EPROBE_DEFER] the
    probe returns what it returns on the same platform with a working
    clock; if it is [-EPROBE_DEFER] the probe fails without registering the
    sensor, with [-EPROBE_DEFER] when the earlier steps succeeded. *)
Theorem probe_clock_optional (pdev : platform_device) (e : positive) :
  platform_ok pdev ->
  devm_clk_get pdev = ErrPtr e ->
  ~ In Call_clk_prepare_enable (snd (brcmstb_thermal_probe pdev)) /\
  (e <> 517%positive ->
   fst (brcmstb_thermal_probe pdev) =
   fst (brcmstb_thermal_probe (with_working_clock pdev))) /\
  (e = 517%positive ->
   fst (brcmstb_thermal_probe pdev) <> 0 /\
   ~ In Call_devm_thermal_zone_of_sensor_register
        (snd (brcmstb_thermal_probe pdev)) /\
   (devm_kzalloc pdev = true ->
    devm_ioremap_resource pdev = Valid ->
    of_device_get_match_data pdev <> None ->
    fst (brcmstb_thermal_probe pdev) = - EPROBE_DEFER)).
Proof.
  destruct pdev as [kz io md clk cpe sens irq req].
  intros (Hio & Hclk & Hsens) Hc. cbn in Hio, Hclk, Hsens, Hc. subst clk.
  unfold with_working_clock. probe_step.
  destruct kz; [|probe_list].
  destruct io as [e0|];
    [rewrite (PTR_ERR_small e0) by assumption; probe_list|].
  destruct md as [socdata|]; [|probe_list].
  rewrite (PTR_ERR_small e) by assumption.
  destruct (Pos.eq_dec e 517) as [->|Ne].
  - change (Z.neg 517 =? - EPROBE_DEFER) with true. probe_list.
  - replace (Z.neg e =? - EPROBE_DEFER) with false
      by (symmetry; apply Z.eqb_neq; unfold EPROBE_DEFER; lia).
    change (0 =? 0) with true.
    destruct sens as [e'|];
      [rewrite (PTR_ERR_small e') by assumption; probe_list|].
    destruct (Z.ltb_spec irq 0); [probe_list|].
    destruct (Z.ltb_spec req 0); probe_list.
Qed.

Lemma probe_clock_optional_witness :
  fst (brcmstb_thermal_probe no_clock_pdev) =
  fst (brcmstb_thermal_probe (with_working_clock no_clock_pdev)) /\
  fst (brcmstb_thermal_probe deferred_clock_pdev) = - EPROBE_DEFER.
Proof.
  split.
  - apply (proj1 (proj2 (probe_clock_optional no_clock_pdev 2
                           ltac:(repeat split; cbn; lia) eq_refl))).
    discriminate.
  - apply (proj2 (proj2 (probe_clock_optional deferred_clock_pdev 517
                           ltac:(repeat split; cbn; lia) eq_refl))).
    + reflexivity.
    + reflexivity.
    + reflexivity.
    + discriminate.
Defined.
